(** * Lyrics video creator: the client-side composition model

    A shallow embedding of the front end's job state store
    ([VideoGenerator.tsx]), of its render request encoder
    ([handleVideoGenerate]) and of the preview compositor
    ([VideoPreview.tsx]), together with the properties of the
    specification that concern them.

    JavaScript numbers are IEEE 754 binary64 values and are modelled by
    Rocq's primitive floats; strings are byte strings (UTF-8). *)

From Stdlib Require Import ZArith QArith Qround Qabs List String Ascii Bool Lia.
From Stdlib Require Import Floats DecimalString.
Import ListNotations.
Close Scope Q_scope.
Open Scope string_scope.

(* ================================================================== *)
(** * JavaScript values *)
(* ================================================================== *)

Module Js.

(** The Number type. *)
Definition Number : Type := float.

(** Conversion of a Web IDL integer attribute (unsigned short, unsigned
    long) to a Number; exact below 2^53. *)
Definition Number_of_N (n : N) : Number :=
  PrimFloat.of_uint63 (Uint63.of_Z (Z.of_N n)).

Definition Number_of_Z (z : Z) : Number :=
  if (z <? 0)%Z
  then PrimFloat.opp (PrimFloat.of_uint63 (Uint63.of_Z (- z)))
  else PrimFloat.of_uint63 (Uint63.of_Z z).

(** The mathematical value of a finite Number, in lowest terms. *)
Definition pow2 (e : Z) : Q :=
  if (0 <=? e)%Z then inject_Z (2 ^ e) else (1 # Z.to_pos (2 ^ (- e)))%Q.

Definition pow10 (e : Z) : Q :=
  if (0 <=? e)%Z then inject_Z (10 ^ e) else (1 # Z.to_pos (10 ^ (- e)))%Q.

Definition exact_value (x : Number) : option Q :=
  match Prim2SF x with
  | S754_zero _ => Some (0 # 1)%Q
  | S754_finite s m e =>
      Some (Qred (inject_Z (if s then Zneg m else Zpos m) * pow2 e)%Q)
  | _ => None
  end.

(** ** Number::toString (ECMA-262, radix 10)

    For a positive finite [x = m * 2^e] the standard asks for integers
    [n], [k], [s] with [k >= 1], [10^(k-1) <= s < 10^k], such that
    [s * 10^(n-k)] converts back to [x] and [k] is as small as possible;
    among several candidates the one closest to [x] is taken, an even
    [s] on a tie. *)

Definition Qltb (a b : Q) : bool :=
  match Qcompare a b with Lt => true | _ => false end.

Definition Qleb (a b : Q) : bool :=
  match Qcompare a b with Gt => false | _ => true end.

(** The reals that round to [m * 2^e] (round to nearest, ties to even)
    lie between the midpoints to its two neighbours.  The lower
    neighbour of a power of two is half as far away. *)
Definition round_low (m : positive) (e : Z) : Q :=
  if Pos.eqb m 4503599627370496 && (-1074 <? e)%Z
  then (inject_Z (4 * Zpos m - 1) * pow2 (e - 2))%Q
  else (inject_Z (2 * Zpos m - 1) * pow2 (e - 1))%Q.

Definition round_high (m : positive) (e : Z) : Q :=
  (inject_Z (2 * Zpos m + 1) * pow2 (e - 1))%Q.

Definition rounds_to (m : positive) (e : Z) (v : Q) : bool :=
  let even := Z.even (Zpos m) in
  (if even then Qleb (round_low m e) v else Qltb (round_low m e) v) &&
  (if even then Qleb v (round_high m e) else Qltb v (round_high m e)).

(** The least [n' >= n] with [x < 10^n']. *)
Fixpoint least_pow10_above (fuel : nat) (x : Q) (n : Z) : Z :=
  match fuel with
  | O => n
  | S fuel' =>
      if Qltb x (pow10 n) then n else least_pow10_above fuel' x (n + 1)%Z
  end.

(** The [k]-digit candidates [(s, n)] next to [x] on the grid of step
    [10^(n-k)]. *)
Definition candidates (m : positive) (e : Z) (x : Q) (k n : Z)
  : list (Z * Z) :=
  let lo := Qfloor (x / pow10 (n - k))%Q in
  filter (fun sn : Z * Z =>
            let s := fst sn in
            (10 ^ (k - 1) <=? s)%Z && (s <? 10 ^ k)%Z &&
            rounds_to m e (inject_Z s * pow10 (n - k))%Q)
         [(lo, n); ((lo + 1)%Z, n)].

Definition distance (x : Q) (k : Z) (sn : Z * Z) : Q :=
  Qabs (inject_Z (fst sn) * pow10 (snd sn - k) - x)%Q.

Definition closer (x : Q) (k : Z) (a b : Z * Z) : Z * Z :=
  match Qcompare (distance x k a) (distance x k b) with
  | Lt => a
  | Gt => b
  | Eq => if Z.even (fst a) then a else b
  end.

Definition closest (x : Q) (k : Z) (l : list (Z * Z)) : option (Z * Z) :=
  match l with
  | [] => None
  | a :: l' => Some (fold_left (closer x k) l' a)
  end.

(** Search for the smallest [k]; seventeen digits always identify a
    binary64 value.  The result is [(n, k, s)]. *)
Fixpoint shortest (fuel : nat) (m : positive) (e : Z) (x : Q) (n0 k : Z)
  : Z * Z * Z :=
  match fuel with
  | O => (n0, k, 0%Z)
  | S fuel' =>
      match closest x k (candidates m e x k (n0 - 1)%Z ++
                         candidates m e x k n0 ++
                         candidates m e x k (n0 + 1)%Z) with
      | Some (s, n) => (n, k, s)
      | None => shortest fuel' m e x n0 (k + 1)%Z
      end
  end.

Definition digits (z : Z) : string :=
  NilZero.string_of_uint (N.to_uint (Z.to_N z)).

Fixpoint zeros (n : nat) : string :=
  match n with
  | O => ""
  | S n' => "0" ++ zeros n'
  end.

(** The last steps of Number::toString: plain digits, a decimal point
    inside or in front of the digits, or exponential notation. *)
Definition format (n k s : Z) : string :=
  let d := digits s in
  if (k <=? n)%Z && (n <=? 21)%Z then
    d ++ zeros (Z.to_nat (n - k))
  else if (0 <? n)%Z && (n <=? 21)%Z then
    substring 0 (Z.to_nat n) d ++ "." ++
    substring (Z.to_nat n) (Z.to_nat (k - n)) d
  else if (-6 <? n)%Z && (n <=? 0)%Z then
    "0." ++ zeros (Z.to_nat (- n)) ++ d
  else
    let ex := (n - 1)%Z in
    let sign := if (ex <? 0)%Z then "-" else "+" in
    if (k =? 1)%Z then d ++ "e" ++ sign ++ digits (Z.abs ex)
    else substring 0 1 d ++ "." ++ substring 1 (Z.to_nat (k - 1)) d ++
         "e" ++ sign ++ digits (Z.abs ex).

Definition positive_toString (m : positive) (e : Z) : string :=
  let x := (inject_Z (Zpos m) * pow2 e)%Q in
  let l2 := (Z.log2 (Zpos m) + e)%Z in
  let n0 := least_pow10_above 8 x (l2 * 30103 / 100000 - 1)%Z in
  let '(n, k, s) := shortest 17 m e x n0 1 in
  format n k s.

Definition Number_toString (x : Number) : string :=
  match Prim2SF x with
  | S754_nan => "NaN"
  | S754_zero _ => "0"
  | S754_infinity s => if s then "-Infinity" else "Infinity"
  | S754_finite s m e => (if s then "-" else "") ++ positive_toString m e
  end.

(** Boolean.prototype.toString. *)
Definition Boolean_toString (b : bool) : string :=
  if b then "true" else "false".

(** ToBoolean on a string: only the empty string is falsy. *)
Definition truthy_string (s : string) : bool :=
  negb (s =? "").

(** ToBoolean on [T | null] for an object type [T]. *)
Definition truthy_object {T : Type} (o : option T) : bool :=
  match o with
  | Some _ => true
  | None => false
  end.

(** What a [catch (error)] clause can bind: an instance of [Error] with
    its message, or any other thrown value. *)
Inductive Thrown : Type :=
| ErrorObject (message : string)
| OtherValue.

Definition instanceof_Error (t : Thrown) : bool :=
  match t with
  | ErrorObject _ => true
  | OtherValue => false
  end.

(** The File objects handed over by the upload widgets.  [file_id] is
    the identity of the object; [file_image] is the natural width and
    height an image element reports once it has decoded the file, when
    the file decodes at all. *)
Record File : Type := {
  file_id : nat;
  file_name : string;
  file_type : string;
  file_image : option (N * N)
}.

(** [Object.is] on [File | null], as React compares effect
    dependencies. *)
Definition same_object (a b : option File) : bool :=
  match a, b with
  | None, None => true
  | Some f, Some g => Nat.eqb (file_id f) (file_id g)
  | _, _ => false
  end.

Record Blob : Type := {
  blob_type : string;
  blob_bytes : string
}.

End Js.

Import Js.

(* ================================================================== *)
(** * The data model ([types/index.ts]) *)
(* ================================================================== *)

Module Types.

Record SubtitleSettings : Type := {
  fontFamilyJa : string;
  fontFamilyEn : string;
  fontSize : Number;
  color : string;
  outlineColor : string;
  outlineSize : Number;
  bottomMargin : Number;
  enableFade : bool
}.

Record VideoGeneratorState : Type := {
  audioFile : option File;
  backgroundImage : option File;
  lyrics : string;
  settings : SubtitleSettings
}.

(** [Partial<SubtitleSettings>]: every property may be missing; a
    property that is there holds a value of the type of the field. *)
Module Partial.

Record SubtitleSettings : Type := {
  fontFamilyJa : option string;
  fontFamilyEn : option string;
  fontSize : option Number;
  color : option string;
  outlineColor : option string;
  outlineSize : option Number;
  bottomMargin : option Number;
  enableFade : option bool
}.

(** The object literal [{}]. *)
Definition empty : SubtitleSettings :=
  {| fontFamilyJa := None; fontFamilyEn := None; fontSize := None;
     color := None; outlineColor := None; outlineSize := None;
     bottomMargin := None; enableFade := None |}.

End Partial.

Inductive ActionType : Type :=
| SET_AUDIO_FILE (payload : option File)
| SET_BACKGROUND_IMAGE (payload : option File)
| SET_LYRICS (payload : string)
| UPDATE_SETTINGS (payload : Partial.SubtitleSettings).

End Types.

Import Types.

(* ================================================================== *)
(** * The job state store and the render request encoder
      ([components/VideoGenerator.tsx]) *)
(* ================================================================== *)

Module VideoGenerator.

Definition initialState : VideoGeneratorState :=
  {| audioFile := None;
     backgroundImage := None;
     lyrics := "";
     settings :=
       {| fontFamilyJa := "Noto Sans JP";
          fontFamilyEn := "Roboto";
          fontSize := 32%float;
          color := "#ffffff";
          outlineColor := "#000000";
          outlineSize := 0%float;
          bottomMargin := 50%float;
          enableFade := true |} |}.

(** One property of [{ ...a, ...b }]: the value of [b] when [b] has the
    property, the value of [a] otherwise. *)
Definition spread_property {A : Type} (a : A) (b : option A) : A :=
  match b with
  | Some v => v
  | None => a
  end.

(** [{ ...state.settings, ...action.payload }] *)
Definition spread_settings (s : SubtitleSettings)
    (p : Partial.SubtitleSettings) : SubtitleSettings :=
  {| fontFamilyJa := spread_property (fontFamilyJa s) (Partial.fontFamilyJa p);
     fontFamilyEn := spread_property (fontFamilyEn s) (Partial.fontFamilyEn p);
     fontSize := spread_property (fontSize s) (Partial.fontSize p);
     color := spread_property (color s) (Partial.color p);
     outlineColor := spread_property (outlineColor s) (Partial.outlineColor p);
     outlineSize := spread_property (outlineSize s) (Partial.outlineSize p);
     bottomMargin := spread_property (bottomMargin s) (Partial.bottomMargin p);
     enableFade := spread_property (enableFade s) (Partial.enableFade p) |}.

Definition reducer (state : VideoGeneratorState) (action : ActionType)
  : VideoGeneratorState :=
  match action with
  | SET_AUDIO_FILE payload =>
      {| audioFile := payload;
         backgroundImage := backgroundImage state;
         lyrics := lyrics state;
         settings := settings state |}
  | SET_BACKGROUND_IMAGE payload =>
      {| audioFile := audioFile state;
         backgroundImage := payload;
         lyrics := lyrics state;
         settings := settings state |}
  | SET_LYRICS payload =>
      {| audioFile := audioFile state;
         backgroundImage := backgroundImage state;
         lyrics := payload;
         settings := settings state |}
  | UPDATE_SETTINGS payload =>
      {| audioFile := audioFile state;
         backgroundImage := backgroundImage state;
         lyrics := lyrics state;
         settings := spread_settings (settings state) payload |}
  end.

(** ** What a handler does to the outside world *)

(** An entry value of a [FormData]: a file, or a string. *)
Inductive FormDataEntryValue : Type :=
| FormFile (f : File)
| FormString (s : string).

(** A [FormData] keeps its entries in the order of the [append] calls,
    and may hold a name more than once. *)
Definition FormData : Type := list (string * FormDataEntryValue).

Definition FormData_append (fd : FormData) (name : string)
    (value : FormDataEntryValue) : FormData :=
  (fd ++ [(name, value)])%list.

(** [append] with an argument of type [File | null]: a value that is not
    a [Blob] is converted to a string. *)
Definition entry_of_file (o : option File) : FormDataEntryValue :=
  match o with
  | Some f => FormFile f
  | None => FormString "null"
  end.

(** The first entry of that name, as [FormData.get]. *)
Fixpoint FormData_get (fd : FormData) (name : string)
  : option FormDataEntryValue :=
  match fd with
  | [] => None
  | (n, v) :: fd' => if (n =? name)%string then Some v else FormData_get fd' name
  end.

(** The response of the renderer: its status line, and what reading its
    body as text or as a blob gives. *)
Record Response : Type := {
  status : N;
  text : Thrown + string;
  blob : Thrown + Blob
}.

(** [response.ok]: the status is in the range 200 to 299. *)
Definition ok (r : Response) : bool :=
  (200 <=? status r)%N && (status r <=? 299)%N.

(** The anchor element built to start the download. *)
Record Anchor : Type := {
  style_display : string;
  href : string;
  download : string
}.

Inductive Effect : Type :=
| alert (message : string)
| fetch (url : string) (method : string) (body : FormData)
| console_warn (message : string)
| console_error (label : string) (error : Thrown)
| createObjectURL (b : Blob)
| revokeObjectURL (url : string)
| appendChild (a : Anchor)
| click (a : Anchor)
| removeChild (a : Anchor)
| dispatch (action : ActionType).

(** What the environment answers during one run of a handler: the
    outcome of the [fetch] (a rejection when no response is obtained)
    and the URL [createObjectURL] hands out. *)
Record Env : Type := {
  fetch_result : Thrown + Response;
  objectURL : string
}.

(** A computation emits effects, in order, and ends with a value or by
    throwing. *)
Definition Io (A : Type) : Type := list Effect * (Thrown + A).

Definition ret {A : Type} (a : A) : Io A := ([], inr a).

Definition throw {A : Type} (e : Thrown) : Io A := ([], inl e).

Definition emit (e : Effect) : Io unit := ([e], inr tt).

Definition bind {A B : Type} (m : Io A) (f : A -> Io B) : Io B :=
  match m with
  | (t1, inl e) => (t1, inl e)
  | (t1, inr a) => let (t2, r) := f a in ((t1 ++ t2)%list, r)
  end.

(** [try { m } catch (error) { h error }] *)
Definition try_catch {A : Type} (m : Io A) (h : Thrown -> Io A) : Io A :=
  match m with
  | (t1, inl e) => let (t2, r) := h e in ((t1 ++ t2)%list, r)
  | (t1, inr a) => (t1, inr a)
  end.

(** [await p] for a promise already settled by the environment. *)
Definition await {A : Type} (p : Thrown + A) : Io A := ([], p).

Declare Scope io_scope.
Delimit Scope io_scope with io.
Notation "x <- m ;; k" := (bind m (fun x => k))
  (at level 61, m at next level, right associativity) : io_scope.
Notation "m ;; k" := (bind m (fun _ => k))
  (at level 61, right associativity) : io_scope.
Open Scope io_scope.

Definition trace {A : Type} (m : Io A) : list Effect := fst m.

Definition outcome {A : Type} (m : Io A) : Thrown + A := snd m.

(** ** The handlers of the component *)

Definition handleAudioUpload (file : option File) : Io unit :=
  emit (dispatch (SET_AUDIO_FILE file)).

Definition handleBackgroundUpload (file : option File) : Io unit :=
  emit (dispatch (SET_BACKGROUND_IMAGE file)).

Definition handleLyricsChange (text : string) : Io unit :=
  emit (dispatch (SET_LYRICS text)).

Definition updateSettings (settings : Partial.SubtitleSettings) : Io unit :=
  emit (dispatch (UPDATE_SETTINGS settings)).

(** The [FormData] built by [handleVideoGenerate]. *)
Definition build_formData (state : VideoGeneratorState) : FormData :=
  let formData : FormData := [] in
  let formData := FormData_append formData "music_file"
                    (entry_of_file (audioFile state)) in
  let formData := FormData_append formData "image_file"
                    (entry_of_file (backgroundImage state)) in
  let formData := FormData_append formData "lyrics"
                    (FormString (lyrics state)) in
  let formData := FormData_append formData "font_size"
                    (FormString (Number_toString (fontSize (settings state)))) in
  let formData := FormData_append formData "font_color"
                    (FormString (color (settings state))) in
  let formData := FormData_append formData "font_name_ja"
                    (FormString (fontFamilyJa (settings state))) in
  let formData := FormData_append formData "font_name_en"
                    (FormString (fontFamilyEn (settings state))) in
  let formData := FormData_append formData "outline_color"
                    (FormString (outlineColor (settings state))) in
  let formData := FormData_append formData "outline_size"
                    (FormString (Number_toString (outlineSize (settings state)))) in
  let formData := FormData_append formData "bottom_margin"
                    (FormString (Number_toString (bottomMargin (settings state)))) in
  let formData := FormData_append formData "enable_fade"
                    (FormString (Boolean_toString (enableFade (settings state)))) in
  formData.

Definition backendURL : string := "http://localhost:8000".

Definition validation_message : string :=
  "必要なファイルまたは歌詞が設定されていません。".

Definition request_failed_message (r : Response) (errorText : string)
  : string :=
  "動画生成に失敗しました: " ++ Number_toString (Number_of_N (status r)) ++
  " " ++ errorText.

Definition unexpected_type_message (b : Blob) : string :=
  "Expected video/mp4 but received " ++ blob_type b.

Definition download_anchor (url : string) : Anchor :=
  {| style_display := "none"; href := url; download := "lyrics_video.mp4" |}.

Definition handleVideoGenerate (env : Env) (state : VideoGeneratorState)
  : Io unit :=
  if negb (truthy_object (audioFile state)) ||
     negb (truthy_object (backgroundImage state)) ||
     negb (truthy_string (lyrics state))
  then
    emit (alert validation_message)
  else
    let formData := build_formData state in
    try_catch
      (response <- (emit (fetch (backendURL ++ "/create_video") "POST" formData) ;;
                    await (fetch_result env)) ;;
       (if negb (ok response) then
          errorText <- await (text response) ;;
          throw (ErrorObject (request_failed_message response errorText))
        else ret tt) ;;
       videoBlob <- await (blob response) ;;
       (if negb (blob_type videoBlob =? "video/mp4")%string then
          emit (console_warn (unexpected_type_message videoBlob))
        else ret tt) ;;
       url <- (emit (createObjectURL videoBlob) ;; ret (objectURL env)) ;;
       let a := download_anchor url in
       emit (appendChild a) ;;
       emit (click a) ;;
       emit (revokeObjectURL url) ;;
       emit (removeChild a))
      (fun error =>
         emit (console_error "動画生成エラー:" error) ;;
         match error with
         | ErrorObject message =>
             emit (alert ("エラーが発生しました: " ++ message))
         | OtherValue =>
             emit (alert "不明なエラーが発生しました。")
         end).

(** The store after a handler has run: [useReducer] applies the
    dispatched actions in order. *)
Definition apply_effect (state : VideoGeneratorState) (e : Effect)
  : VideoGeneratorState :=
  match e with
  | dispatch action => reducer state action
  | _ => state
  end.

Definition is_dispatch (e : Effect) : bool :=
  match e with
  | dispatch _ => true
  | _ => false
  end.

Definition run_handler (state : VideoGeneratorState) (h : Io unit)
  : VideoGeneratorState :=
  fold_left apply_effect (trace h) state.

(** What the component renders from its state: the props it passes
    down, and whether the button is disabled. *)
Record View : Type := {
  preview_backgroundImage : option File;
  preview_lyrics : string;
  preview_settings : SubtitleSettings;
  audio_upload_file : option File;
  image_upload_file : option File;
  lyrics_input_value : string;
  button_disabled : bool;
  panel_settings : SubtitleSettings
}.

Definition render (state : VideoGeneratorState) : View :=
  {| preview_backgroundImage := backgroundImage state;
     preview_lyrics := lyrics state;
     preview_settings := settings state;
     audio_upload_file := audioFile state;
     image_upload_file := backgroundImage state;
     lyrics_input_value := lyrics state;
     button_disabled :=
       negb (truthy_object (audioFile state)) ||
       negb (truthy_object (backgroundImage state)) ||
       negb (truthy_string (lyrics state));
     panel_settings := settings state |}.

End VideoGenerator.

(* ================================================================== *)
(** * The preview compositor ([components/VideoPreview.tsx]) *)
(* ================================================================== *)

Module VideoPreview.

(** ** The two subtitle styles *)

Inductive CssValue : Type :=
| CssNumber (n : Number)
| CssString (s : string).

(** The properties of [React.CSSProperties] the component sets; a
    property the object literal does not mention is [None]. *)
Module Css.

Record CSSProperties : Type := {
  fontFamily : option CssValue;
  fontSize : option CssValue;
  color : option CssValue;
  textShadow : option CssValue;
  WebkitTextStroke : option CssValue;
  marginTop : option CssValue;
  marginBottom : option CssValue;
  padding : option CssValue
}.

End Css.

(** The template literal [`${n}px`]. *)
Definition px (n : Number) : string := Number_toString n ++ "px".

Definition subtitleStyle (settings : SubtitleSettings) : Css.CSSProperties :=
  {| Css.fontFamily := Some (CssString (fontFamilyJa settings));
     Css.fontSize := Some (CssString (px (fontSize settings)));
     Css.color := Some (CssString (color settings));
     Css.textShadow :=
       Some (CssString ("0 0 " ++ px (outlineSize settings) ++ " " ++
                        outlineColor settings));
     Css.WebkitTextStroke :=
       Some (CssString (px (outlineSize settings) ++ " " ++
                        outlineColor settings));
     Css.marginTop := None;
     Css.marginBottom := Some (CssNumber 0%float);
     Css.padding := Some (CssNumber 0%float) |}.

(** [{ ...subtitleStyle, fontFamily, fontSize, marginTop, marginBottom }] *)
Definition englishSubtitleStyle (settings : SubtitleSettings)
  : Css.CSSProperties :=
  let base := subtitleStyle settings in
  {| Css.fontFamily := Some (CssString (fontFamilyEn settings));
     Css.fontSize := Some (CssString (px (fontSize settings / 2)%float));
     Css.color := Css.color base;
     Css.textShadow := Css.textShadow base;
     Css.WebkitTextStroke := Css.WebkitTextStroke base;
     Css.marginTop := Some (CssNumber 0%float);
     Css.marginBottom := Some (CssString (px (bottomMargin settings)));
     Css.padding := Css.padding base |}.

(** ** The component as a transition system

    The component keeps [backgroundUrl] and [aspectRatio] as React
    state.  Its effect depends on [backgroundImage] alone; it creates an
    object URL, starts an [Image] loading from it with an [onload]
    handler, and returns a cleanup that revokes the URL.  The handler of
    an image runs when the browser has decoded it, at a moment the
    component does not choose. *)

(** The [n]-th URL handed out by [URL.createObjectURL]. *)
Definition ObjectURL : Type := nat.

Record State : Type := {
  (** the [backgroundImage] prop the effect last ran with *)
  props_backgroundImage : option File;
  backgroundUrl : option ObjectURL;
  aspectRatio : Number;
  (** the URL the cleanup returned by the last effect run revokes *)
  cleanup : option ObjectURL;
  (** the images started by the effect whose [onload] has not run yet:
      their [src] and the file behind it *)
  images : list (ObjectURL * File);
  (** the object URLs created and not yet revoked *)
  object_urls : list ObjectURL;
  next_url : ObjectURL
}.

Definition default_aspectRatio : Number := (16 / 9)%float.

Definition revoke (url : ObjectURL) (urls : list ObjectURL)
  : list ObjectURL :=
  filter (fun u => negb (Nat.eqb u url)) urls.

Fixpoint image_of_src (src : ObjectURL) (l : list (ObjectURL * File))
  : option File :=
  match l with
  | [] => None
  | (u, f) :: l' => if Nat.eqb u src then Some f else image_of_src src l'
  end.

Definition forget_image (src : ObjectURL) (l : list (ObjectURL * File))
  : list (ObjectURL * File) :=
  filter (fun uf => negb (Nat.eqb (fst uf) src)) l.

(** The body of the effect. *)
Definition effect (backgroundImage : option File) (st : State) : State :=
  match backgroundImage with
  | Some file =>
      let newUrl := next_url st in
      {| props_backgroundImage := Some file;
         backgroundUrl := Some newUrl;
         aspectRatio := aspectRatio st;
         cleanup := Some newUrl;
         images := images st ++ [(newUrl, file)];
         object_urls := object_urls st ++ [newUrl];
         next_url := S newUrl |}
  | None =>
      {| props_backgroundImage := None;
         backgroundUrl := None;
         aspectRatio := default_aspectRatio;
         cleanup := None;
         images := images st;
         object_urls := object_urls st;
         next_url := next_url st |}
  end.

(** The cleanup of the previous effect run: [URL.revokeObjectURL(newUrl)]. *)
Definition run_cleanup (st : State) : State :=
  match cleanup st with
  | Some url =>
      {| props_backgroundImage := props_backgroundImage st;
         backgroundUrl := backgroundUrl st;
         aspectRatio := aspectRatio st;
         cleanup := None;
         images := images st;
         object_urls := revoke url (object_urls st);
         next_url := next_url st |}
  | None => st
  end.

(** [img.onload]: [setAspectRatio(img.width / img.height)] and
    [URL.revokeObjectURL(img.src)]. *)
Definition onload (src : ObjectURL) (width height : N) (st : State) : State :=
  {| props_backgroundImage := props_backgroundImage st;
     backgroundUrl := backgroundUrl st;
     aspectRatio := (Number_of_N width / Number_of_N height)%float;
     cleanup := cleanup st;
     images := forget_image src (images st);
     object_urls := revoke src (object_urls st);
     next_url := next_url st |}.

Inductive Event : Type :=
| Rerender (backgroundImage : option File)
| ImageLoad (src : ObjectURL).

(** A new render runs the cleanup and the effect when the dependency
    changed.  A load event reaches the handler of the image that was
    started from that URL, if the file decodes. *)
Definition step (st : State) (ev : Event) : State :=
  match ev with
  | Rerender backgroundImage =>
      if same_object (props_backgroundImage st) backgroundImage then st
      else effect backgroundImage (run_cleanup st)
  | ImageLoad src =>
      match image_of_src src (images st) with
      | Some file =>
          match file_image file with
          | Some (width, height) => onload src width height st
          | None => st
          end
      | None => st
      end
  end.

(** The first render: the [useState] initial values, then the effect. *)
Definition mount (backgroundImage : option File) : State :=
  effect backgroundImage
    {| props_backgroundImage := backgroundImage;
       backgroundUrl := None;
       aspectRatio := default_aspectRatio;
       cleanup := None;
       images := [];
       object_urls := [];
       next_url := 0 |}.

Definition run (st : State) (evs : list Event) : State :=
  fold_left step evs st.

(** The padding that gives the frame its shape:
    [`${(1 / aspectRatio) * 100}%`]. *)
Definition paddingBottom (st : State) : string :=
  Number_toString ((1 / aspectRatio st) * 100)%float ++ "%".

Definition decodes (uf : ObjectURL * File) : bool :=
  match file_image (snd uf) with
  | Some _ => true
  | None => false
  end.

(** The decodes that are outstanding: the images started by the effect
    whose load event is still to come.  An image whose file does not
    decode gets no load event (the browser raises an error event, for
    which the component has no handler), so it is not among them. *)
Definition outstanding (st : State) : list (ObjectURL * File) :=
  filter decodes (images st).

(** A run in which the image is replaced or cleared only when no decode
    is outstanding.  A render with the background image the component
    already has replaces nothing and may come at any moment. *)
Fixpoint orderly (st : State) (evs : list Event) : Prop :=
  match evs with
  | [] => True
  | ev :: evs' =>
      match ev with
      | Rerender backgroundImage =>
          same_object (props_backgroundImage st) backgroundImage = true \/
          outstanding st = []
      | ImageLoad _ => True
      end /\ orderly (step st ev) evs'
  end.

(** No decode is outstanding and the aspect ratio is that of the
    current image (the default without one), or the one outstanding
    decode is that of the current image. *)
Definition settled (st : State) : Prop :=
  match outstanding st with
  | [] =>
      match props_backgroundImage st with
      | Some file =>
          forall width height,
            file_image file = Some (width, height) ->
            aspectRatio st = (Number_of_N width / Number_of_N height)%float
      | None => aspectRatio st = default_aspectRatio
      end
  | [(_, file)] => props_backgroundImage st = Some file
  | _ => False
  end.

End VideoPreview.

Import VideoGenerator.
Import VideoPreview.

(* ================================================================== *)
(** * The lyrics input ([components/LyricsInput.tsx]) *)
(* ================================================================== *)

Module LyricsInput.

(** The line feed, [\n]. *)
Definition line_feed : ascii := ascii_of_nat 10.

(** [value.split(sep)] for a separator of one character: the pieces
    between the separators, so one piece more than there are
    separators. *)
Fixpoint split (sep : ascii) (value : string) : list string :=
  match value with
  | EmptyString => [EmptyString]
  | String c rest =>
      if Ascii.eqb c sep then EmptyString :: split sep rest
      else
        match split sep rest with
        | piece :: pieces => String c piece :: pieces
        | [] => [String c EmptyString]
        end
  end.

(** [handleChange]: the value of the textarea goes to [onChange]. *)
Definition handleChange (onChange : string -> Io unit)
    (target_value : string) : Io unit :=
  onChange target_value.

(** [value.split('\n').length] *)
Definition line_count (value : string) : nat :=
  List.length (split line_feed value).

(** The counter under the textarea. *)
Definition counter (value : string) : string :=
  Number_toString (Number_of_N (N.of_nat (line_count value))) ++ "行".

End LyricsInput.

(* ================================================================== *)
(** * The upload widget ([components/FileUpload.tsx]) *)
(* ================================================================== *)

Module FileUpload.

(** The part of the click event the widget acts on. *)
Record MouseEvent : Type := {
  propagation_stopped : bool
}.

(** [onDrop]: the first accepted file, if there is one, goes to
    [onFileChange]. *)
Definition onDrop (onFileChange : option File -> Io unit)
    (acceptedFiles : list File) : Io unit :=
  if (0 <? List.length acceptedFiles)%nat
  then onFileChange (nth_error acceptedFiles 0)
  else ret tt.

(** [handleClearFile]: [e.stopPropagation()], then [onFileChange(null)]. *)
Definition handleClearFile (onFileChange : option File -> Io unit)
    (e : MouseEvent) : MouseEvent * Io unit :=
  ({| propagation_stopped := true |}, onFileChange None).

End FileUpload.

(* ================================================================== *)
(** * The settings panel ([components/SubtitleSettingsPanel.tsx]) *)
(* ================================================================== *)

Module SubtitleSettingsPanel.

Definition japaneseFonts : list string :=
  ["HG教科書体"; "HGP教科書体"; "Meiryo"; "Meiryo UI"; "MS Gothic";
   "MS PGothic"; "MS Mincho"; "MS PMincho"; "Noto Sans JP";
   "Noto Serif JP"; "Yu Gothic"; "Yu Gothic UI"].

Definition englishFonts : list string :=
  ["Roboto"; "Arial"; "Times New Roman"].

(** What a control hands to its callback: the value of the chosen
    option, the first value of the slider, the picked colour, the state
    of the switch. *)
Inductive Change : Type :=
| SelectFontFamilyJa (target_value : string)
| SelectFontFamilyEn (target_value : string)
| SlideFontSize (value : Number)
| SlideOutlineSize (value : Number)
| PickColor (color : string)
| PickOutlineColor (color : string)
| SlideBottomMargin (value : Number)
| SwitchEnableFade (checked : bool).

(** The object literal each callback builds: one property. *)
Definition patch_of (c : Change) : Partial.SubtitleSettings :=
  match c with
  | SelectFontFamilyJa v =>
      {| Partial.fontFamilyJa := Some v; Partial.fontFamilyEn := None;
         Partial.fontSize := None; Partial.color := None;
         Partial.outlineColor := None; Partial.outlineSize := None;
         Partial.bottomMargin := None; Partial.enableFade := None |}
  | SelectFontFamilyEn v =>
      {| Partial.fontFamilyJa := None; Partial.fontFamilyEn := Some v;
         Partial.fontSize := None; Partial.color := None;
         Partial.outlineColor := None; Partial.outlineSize := None;
         Partial.bottomMargin := None; Partial.enableFade := None |}
  | SlideFontSize v =>
      {| Partial.fontFamilyJa := None; Partial.fontFamilyEn := None;
         Partial.fontSize := Some v; Partial.color := None;
         Partial.outlineColor := None; Partial.outlineSize := None;
         Partial.bottomMargin := None; Partial.enableFade := None |}
  | SlideOutlineSize v =>
      {| Partial.fontFamilyJa := None; Partial.fontFamilyEn := None;
         Partial.fontSize := None; Partial.color := None;
         Partial.outlineColor := None; Partial.outlineSize := Some v;
         Partial.bottomMargin := None; Partial.enableFade := None |}
  | PickColor v =>
      {| Partial.fontFamilyJa := None; Partial.fontFamilyEn := None;
         Partial.fontSize := None; Partial.color := Some v;
         Partial.outlineColor := None; Partial.outlineSize := None;
         Partial.bottomMargin := None; Partial.enableFade := None |}
  | PickOutlineColor v =>
      {| Partial.fontFamilyJa := None; Partial.fontFamilyEn := None;
         Partial.fontSize := None; Partial.color := None;
         Partial.outlineColor := Some v; Partial.outlineSize := None;
         Partial.bottomMargin := None; Partial.enableFade := None |}
  | SlideBottomMargin v =>
      {| Partial.fontFamilyJa := None; Partial.fontFamilyEn := None;
         Partial.fontSize := None; Partial.color := None;
         Partial.outlineColor := None; Partial.outlineSize := None;
         Partial.bottomMargin := Some v; Partial.enableFade := None |}
  | SwitchEnableFade v =>
      {| Partial.fontFamilyJa := None; Partial.fontFamilyEn := None;
         Partial.fontSize := None; Partial.color := None;
         Partial.outlineColor := None; Partial.outlineSize := None;
         Partial.bottomMargin := None; Partial.enableFade := Some v |}
  end.

(** The callback of a control: [onChange({ field: value })]. *)
Definition handle (onChange : Partial.SubtitleSettings -> Io unit)
    (c : Change) : Io unit :=
  onChange (patch_of c).

(** The values on the track of a slider with the given [min] and
    [step], and [steps] steps up to its [max]. *)
Definition slider_values (min step : Number) (steps : nat) : list Number :=
  map (fun k => (min + Number_of_N (N.of_nat k) * step)%float)
      (seq 0 (S steps)).

(** [min={16} max={72} step={1}] *)
Definition fontSize_values : list Number := slider_values 16%float 1%float 56.

(** [min={0} max={4} step={0.25}] *)
Definition outlineSize_values : list Number := slider_values 0%float 0.25%float 16.

(** [min={0} max={150} step={5}] *)
Definition bottomMargin_values : list Number := slider_values 0%float 5%float 30.

(** The labels above the sliders. *)
Definition fontSize_label (settings : SubtitleSettings) : string :=
  "フォントサイズ: " ++ Number_toString (fontSize settings) ++ "px".

Definition outlineSize_label (settings : SubtitleSettings) : string :=
  "縁取りの大きさ: " ++ Number_toString (outlineSize settings) ++ "px".

Definition bottomMargin_label (settings : SubtitleSettings) : string :=
  "下余白: " ++ Number_toString (bottomMargin settings) ++ "px".

End SubtitleSettingsPanel.

(* ================================================================== *)
(** * The vocabulary of the specification, and sample data *)
(* ================================================================== *)

Module Spec.

(** Submit-eligibility in the words of the specification: the audio
    file is present, the background image is present, and the lyrics
    are not empty. *)
Definition submit_eligible (state : VideoGeneratorState) : bool :=
  match audioFile state, backgroundImage state with
  | Some _, Some _ => negb (String.length (lyrics state) =? 0)%nat
  | _, _ => false
  end.

(** [result] is the value given by the last patch of [patches] that
    names the field read by [get], or [prior] when none names it. *)
Definition last_named {A : Type}
    (get : Partial.SubtitleSettings -> option A)
    (patches : list Partial.SubtitleSettings) (prior result : A) : Prop :=
  (exists before p after v,
      patches = (before ++ p :: after)%list /\
      get p = Some v /\
      Forall (fun q => get q = None) after /\
      result = v)
  \/ (Forall (fun q => get q = None) patches /\ result = prior).

(** The store after a sequence of [updateSettings] calls. *)
Definition after_updates (state : VideoGeneratorState)
    (patches : list Partial.SubtitleSettings) : VideoGeneratorState :=
  fold_left (fun st p => run_handler st (updateSettings p)) patches state.

(** The one request the encoder sends for a state. *)
Definition request (state : VideoGeneratorState) : Effect :=
  fetch (backendURL ++ "/create_video") "POST" (build_formData state).

(** The decimal numeral of [n / 2] for a natural [n]. *)
Definition decimal_of_half (n : Z) : string :=
  digits (n / 2) ++ (if Z.odd n then ".5" else "").

(** The decimal numeral of [k / 4] for a natural [k]. *)
Definition decimal_of_quarters (k : Z) : string :=
  digits (k / 4) ++
  (if (k mod 4 =? 1)%Z then ".25"
   else if (k mod 4 =? 2)%Z then ".5"
   else if (k mod 4 =? 3)%Z then ".75"
   else "").

(** A declared content type is a video type when it starts with
    [video/]. *)
Definition is_video_type (t : string) : bool := prefix "video/" t.

(** The property of the aspect ratio read at every moment of every run
    of the compositor: the ratio of the present image, the default
    without an image. *)
Definition aspect_ratio_follows_image : Prop :=
  forall evs : list Event,
    let st := run (mount None) evs in
    match props_backgroundImage st with
    | Some file =>
        forall width height,
          file_image file = Some (width, height) ->
          aspectRatio st =
          (Number_of_N width / Number_of_N height)%float
    | None =>
        aspectRatio st = default_aspectRatio
    end.

(** The property that a decode result arriving for an asset that is no
    longer the current one leaves the aspect ratio alone. *)
Definition late_results_discarded : Prop :=
  forall (evs : list Event) (src : ObjectURL)
         (file : File),
    let st := run (mount None) evs in
    image_of_src src (images st) = Some file ->
    same_object (props_backgroundImage st) (Some file) = false ->
    aspectRatio (step st (ImageLoad src))
    = aspectRatio st.

End Spec.

Module Sample.

Definition newline : string := String (ascii_of_nat 10) "".

Definition audio : File :=
  {| file_id := 1; file_name := "song.mp3"; file_type := "audio/mpeg";
     file_image := None |}.

Definition background : File :=
  {| file_id := 2; file_name := "cover.png"; file_type := "image/png";
     file_image := Some (1000, 500)%N |}.

Definition wide : File :=
  {| file_id := 3; file_name := "wide.jpg"; file_type := "image/jpeg";
     file_image := Some (1920, 1080)%N |}.

(** Audio and background present, two lines of lyrics, the default
    settings. *)
Definition job : VideoGeneratorState :=
  {| audioFile := Some audio;
     backgroundImage := Some background;
     lyrics := "line1" ++ newline ++ "line2";
     settings := settings initialState |}.

Definition render_failed : Env :=
  {| fetch_result :=
       inr {| status := 500;
              text := inr "render failed";
              blob := inr {| blob_type := "text/plain";
                             blob_bytes := "render failed" |} |};
     objectURL := "blob:0" |}.

Definition payload : Blob :=
  {| blob_type := "application/octet-stream"; blob_bytes := "...." |}.

Definition rendered_untyped : Env :=
  {| fetch_result :=
       inr {| status := 200;
              text := inr "....";
              blob := inr payload |};
     objectURL := "blob:0" |}.

Definition unreachable : Env :=
  {| fetch_result := inl (ErrorObject "Failed to fetch");
     objectURL := "blob:0" |}.

(** A patch that names the font size only, and one that names the
    bottom margin only. *)
Definition size_patch (n : Number) : Partial.SubtitleSettings :=
  {| Partial.fontFamilyJa := None; Partial.fontFamilyEn := None;
     Partial.fontSize := Some n; Partial.color := None;
     Partial.outlineColor := None; Partial.outlineSize := None;
     Partial.bottomMargin := None; Partial.enableFade := None |}.

Definition margin_patch (n : Number) : Partial.SubtitleSettings :=
  {| Partial.fontFamilyJa := None; Partial.fontFamilyEn := None;
     Partial.fontSize := None; Partial.color := None;
     Partial.outlineColor := None; Partial.outlineSize := None;
     Partial.bottomMargin := Some n; Partial.enableFade := None |}.

(** The background is set and cleared again before its decode ends. *)
Definition cleared_early : list Event :=
  [Rerender (Some background);
   Rerender None;
   ImageLoad 0].

(** The background is replaced; the decode of the new image ends
    first. *)
Definition replaced_early : list Event :=
  [Rerender (Some background);
   Rerender (Some wide);
   ImageLoad 1].

(** The background is set, decoded, and then cleared. *)
Definition in_turn : list Event :=
  [Rerender (Some wide);
   ImageLoad 0;
   Rerender None].

(** The audio file, which is no image, is put as the background; it is
    replaced by an image; the component is rendered again with that
    image while its decode is under way; the decode ends. *)
Definition with_renders : list Event :=
  [Rerender (Some audio);
   Rerender (Some background);
   Rerender (Some background);
   ImageLoad 1;
   Rerender (Some background)].

End Sample.

Import Spec.

(* ================================================================== *)
(** * Vocabulary for the laws of the store, the handlers and the
      widgets *)
(* ================================================================== *)

Module Laws.

(** The payloads of the actions of each kind, in order. *)
Definition audio_writes (actions : list ActionType) : list (option File) :=
  flat_map (fun a => match a with SET_AUDIO_FILE p => [p] | _ => [] end)
           actions.

Definition image_writes (actions : list ActionType) : list (option File) :=
  flat_map (fun a => match a with SET_BACKGROUND_IMAGE p => [p] | _ => [] end)
           actions.

Definition lyrics_writes (actions : list ActionType) : list string :=
  flat_map (fun a => match a with SET_LYRICS p => [p] | _ => [] end) actions.

Definition settings_patches (actions : list ActionType)
  : list Partial.SubtitleSettings :=
  flat_map (fun a => match a with UPDATE_SETTINGS p => [p] | _ => [] end)
           actions.

(** One property of [{ ...p, ...q }] for two partial objects. *)
Definition merge_property {A : Type} (a b : option A) : option A :=
  match b with
  | Some v => Some v
  | None => a
  end.

(** [{ ...p, ...q }] *)
Definition merge_patches (p q : Partial.SubtitleSettings)
  : Partial.SubtitleSettings :=
  {| Partial.fontFamilyJa :=
       merge_property (Partial.fontFamilyJa p) (Partial.fontFamilyJa q);
     Partial.fontFamilyEn :=
       merge_property (Partial.fontFamilyEn p) (Partial.fontFamilyEn q);
     Partial.fontSize :=
       merge_property (Partial.fontSize p) (Partial.fontSize q);
     Partial.color := merge_property (Partial.color p) (Partial.color q);
     Partial.outlineColor :=
       merge_property (Partial.outlineColor p) (Partial.outlineColor q);
     Partial.outlineSize :=
       merge_property (Partial.outlineSize p) (Partial.outlineSize q);
     Partial.bottomMargin :=
       merge_property (Partial.bottomMargin p) (Partial.bottomMargin q);
     Partial.enableFade :=
       merge_property (Partial.enableFade p) (Partial.enableFade q) |}.

Definition one_absent {A : Type} (a b : option A) : Prop :=
  a = None \/ b = None.

(** No field is named by both patches. *)
Definition disjoint_patches (p q : Partial.SubtitleSettings) : Prop :=
  one_absent (Partial.fontFamilyJa p) (Partial.fontFamilyJa q) /\
  one_absent (Partial.fontFamilyEn p) (Partial.fontFamilyEn q) /\
  one_absent (Partial.fontSize p) (Partial.fontSize q) /\
  one_absent (Partial.color p) (Partial.color q) /\
  one_absent (Partial.outlineColor p) (Partial.outlineColor q) /\
  one_absent (Partial.outlineSize p) (Partial.outlineSize q) /\
  one_absent (Partial.bottomMargin p) (Partial.bottomMargin q) /\
  one_absent (Partial.enableFade p) (Partial.enableFade q).

(** Kinds of effects, and how many of a kind a trace holds. *)
Definition is_alert (e : Effect) : bool :=
  match e with alert _ => true | _ => false end.

Definition is_fetch (e : Effect) : bool :=
  match e with fetch _ _ _ => true | _ => false end.

Definition is_click (e : Effect) : bool :=
  match e with click _ => true | _ => false end.

(** The effects on object URLs and on the document. *)
Definition is_download_step (e : Effect) : bool :=
  match e with
  | createObjectURL _ | revokeObjectURL _
  | appendChild _ | click _ | removeChild _ => true
  | _ => false
  end.

Definition count (kind : Effect -> bool) (t : list Effect) : nat :=
  List.length (filter kind t).

(** What the [catch] clause shows for a thrown value. *)
Definition failure_alert (e : Thrown) : Effect :=
  match e with
  | ErrorObject message => alert ("エラーが発生しました: " ++ message)
  | OtherValue => alert "不明なエラーが発生しました。"
  end.

(** The run of the handler that ends in the [catch] clause with [e]. *)
Definition failure_run (state : VideoGeneratorState) (e : Thrown)
  : Io unit :=
  ([request state; console_error "動画生成エラー:" e; failure_alert e], inr tt).

(** The steps of the download of [b]. *)
Definition download_steps (env : Env) (b : Blob) : list Effect :=
  [createObjectURL b;
   appendChild (download_anchor (objectURL env));
   click (download_anchor (objectURL env));
   revokeObjectURL (objectURL env);
   removeChild (download_anchor (objectURL env))].

(** The settings the controls of the panel can produce: fonts of the
    two option lists, numbers on the tracks of the three sliders. *)
Definition in_domain (s : SubtitleSettings) : Prop :=
  In (fontFamilyJa s) SubtitleSettingsPanel.japaneseFonts /\
  In (fontFamilyEn s) SubtitleSettingsPanel.englishFonts /\
  In (fontSize s) SubtitleSettingsPanel.fontSize_values /\
  In (outlineSize s) SubtitleSettingsPanel.outlineSize_values /\
  In (bottomMargin s) SubtitleSettingsPanel.bottomMargin_values.

Definition change_in_domain (c : SubtitleSettingsPanel.Change) : Prop :=
  match c with
  | SubtitleSettingsPanel.SelectFontFamilyJa v =>
      In v SubtitleSettingsPanel.japaneseFonts
  | SubtitleSettingsPanel.SelectFontFamilyEn v =>
      In v SubtitleSettingsPanel.englishFonts
  | SubtitleSettingsPanel.SlideFontSize v =>
      In v SubtitleSettingsPanel.fontSize_values
  | SubtitleSettingsPanel.SlideOutlineSize v =>
      In v SubtitleSettingsPanel.outlineSize_values
  | SubtitleSettingsPanel.SlideBottomMargin v =>
      In v SubtitleSettingsPanel.bottomMargin_values
  | _ => True
  end.

(** The store after the user has worked the controls of the panel, the
    panel's [onChange] being [updateSettings]. *)
Definition after_changes (state : VideoGeneratorState)
    (changes : list SubtitleSettingsPanel.Change) : VideoGeneratorState :=
  fold_left
    (fun st c => run_handler st (SubtitleSettingsPanel.handle updateSettings c))
    changes state.

(** The number of line feeds in a string. *)
Fixpoint line_feeds (value : string) : nat :=
  match value with
  | EmptyString => 0
  | String c rest =>
      (if Ascii.eqb c LyricsInput.line_feed then 1 else 0) + line_feeds rest
  end.

(** [pieces.join(sep)] for a separator of one character. *)
Definition join (sep : ascii) (pieces : list string) : string :=
  String.concat (String sep EmptyString) pieces.

Fixpoint contains (c : ascii) (s : string) : bool :=
  match s with
  | EmptyString => false
  | String d rest => Ascii.eqb d c || contains c rest
  end.

(** The object URLs of the images whose decode is under way. *)
Definition pending_srcs (st : State) : list ObjectURL :=
  map fst (images st).

(** What the effect and the load handler maintain: a live object URL is
    the one the next cleanup revokes; the URLs handed out so far are
    below [next_url]; the decodes under way have distinct URLs; the
    background URL is the URL of the cleanup, and is there exactly when
    a background image is. *)
Definition well_formed (st : State) : Prop :=
  (forall u, In u (object_urls st) -> cleanup st = Some u) /\
  (forall u, cleanup st = Some u -> u < next_url st) /\
  (forall u, In u (pending_srcs st) -> u < next_url st) /\
  NoDup (pending_srcs st) /\
  backgroundUrl st = cleanup st /\
  (backgroundUrl st = None <-> props_backgroundImage st = None).

(** The component is removed: React runs the last cleanup. *)
Definition unmount (st : State) : State := run_cleanup st.

End Laws.

Import Laws.

(* ================================================================== *)
(** * Properties *)
(* ================================================================== *)

Arguments Number_toString : simpl never.
Arguments String.append : simpl never.

(** ** Truthiness and the guard *)

Lemma truthy_string_nonempty (s : string) :
  truthy_string s = true <-> s <> "".
Proof.
  unfold truthy_string. destruct s as [|c s]; simpl.
  - split; [discriminate | intro H; now elim H].
  - split; [discriminate | reflexivity].
Qed.

(** The condition of the guard of [handleVideoGenerate], which is also
    that of the [disabled] attribute, against submit-eligibility. *)
Lemma guard_eligible (state : VideoGeneratorState) :
  negb (truthy_object (audioFile state)) ||
  negb (truthy_object (backgroundImage state)) ||
  negb (truthy_string (lyrics state)) = negb (submit_eligible state).
Proof.
  unfold submit_eligible, truthy_string.
  destruct (audioFile state), (backgroundImage state), (lyrics state);
    reflexivity.
Qed.

Lemma submit_eligible_true (state : VideoGeneratorState) :
  submit_eligible state = true <->
  (exists a, audioFile state = Some a) /\
  (exists b, backgroundImage state = Some b) /\
  lyrics state <> "".
Proof.
  unfold submit_eligible.
  destruct (audioFile state) as [a|], (backgroundImage state) as [b|];
    try (split; [discriminate | intros (Ha & Hb & _)]);
    try (now destruct Ha); try (now destruct Hb).
  destruct (lyrics state); simpl.
  - split; [discriminate | intros (_ & _ & H); now elim H].
  - split; [intros _; repeat split; eauto; discriminate | reflexivity].
Qed.

Lemma submit_eligible_false (state : VideoGeneratorState) :
  submit_eligible state = false <->
  audioFile state = None \/ backgroundImage state = None \/ lyrics state = "".
Proof.
  unfold submit_eligible.
  destruct (audioFile state), (backgroundImage state), (lyrics state);
    simpl; intuition congruence.
Qed.

(** ** The trace of the submit handler, outcome by outcome *)

Lemma handle_missing (env : Env) (state : VideoGeneratorState) :
  submit_eligible state = false ->
  handleVideoGenerate env state = ([alert validation_message], inr tt).
Proof.
  intros H. unfold handleVideoGenerate. now rewrite guard_eligible, H.
Qed.

Lemma handle_rejected (env : Env) (state : VideoGeneratorState) (e : Thrown) :
  submit_eligible state = true ->
  fetch_result env = inl e ->
  handleVideoGenerate env state =
  ([request state; console_error "動画生成エラー:" e;
    match e with
    | ErrorObject message => alert ("エラーが発生しました: " ++ message)
    | OtherValue => alert "不明なエラーが発生しました。"
    end], inr tt).
Proof.
  intros Hm Hf. unfold handleVideoGenerate. rewrite guard_eligible, Hm. simpl negb.
  unfold try_catch, bind, emit, await. rewrite Hf.
  destruct e; reflexivity.
Qed.

Lemma handle_not_ok (env : Env) (state : VideoGeneratorState)
    (r : Response) (errorText : string) :
  submit_eligible state = true ->
  fetch_result env = inr r ->
  ok r = false ->
  text r = inr errorText ->
  handleVideoGenerate env state =
  ([request state;
    console_error "動画生成エラー:"
      (ErrorObject (request_failed_message r errorText));
    alert ("エラーが発生しました: " ++ request_failed_message r errorText)],
   inr tt).
Proof.
  intros Hm Hf Hok Ht. unfold handleVideoGenerate. rewrite guard_eligible, Hm. simpl negb.
  unfold try_catch, bind, emit, await, throw. rewrite Hf, Hok, Ht.
  reflexivity.
Qed.

Lemma handle_ok (env : Env) (state : VideoGeneratorState)
    (r : Response) (videoBlob : Blob) :
  submit_eligible state = true ->
  fetch_result env = inr r ->
  ok r = true ->
  blob r = inr videoBlob ->
  handleVideoGenerate env state =
  ((request state ::
    (if (blob_type videoBlob =? "video/mp4")%string then []
     else [console_warn (unexpected_type_message videoBlob)]) ++
    [createObjectURL videoBlob;
     appendChild (download_anchor (objectURL env));
     click (download_anchor (objectURL env));
     revokeObjectURL (objectURL env);
     removeChild (download_anchor (objectURL env))])%list,
   inr tt).
Proof.
  intros Hm Hf Hok Hb. unfold handleVideoGenerate. rewrite guard_eligible, Hm. simpl negb.
  unfold try_catch, bind, emit, await, throw, ret. rewrite Hf, Hok, Hb.
  simpl. destruct (blob_type videoBlob =? "video/mp4")%string; reflexivity.
Qed.

(** Every path through the handler: the guard, the outcome of the
    fetch, the status, the outcome of reading the body, the declared
    type. *)
Ltac handler_paths env state :=
  unfold handleVideoGenerate; rewrite guard_eligible;
  destruct (submit_eligible state); simpl negb; [|reflexivity];
  unfold try_catch, bind, emit, await, throw, ret;
  destruct (fetch_result env) as [[?|]|?r]; [reflexivity|reflexivity|];
  destruct (ok r); simpl;
  [ destruct (blob r) as [[?|]|?b]; [reflexivity|reflexivity|];
    destruct (blob_type b =? "video/mp4")%string; reflexivity
  | destruct (text r) as [[?|]|?t]; reflexivity ].

Lemma handle_no_dispatch (env : Env) (state : VideoGeneratorState) :
  forallb (fun e => negb (is_dispatch e))
          (trace (handleVideoGenerate env state)) = true.
Proof. handler_paths env state. Qed.

Lemma handle_returns (env : Env) (state : VideoGeneratorState) :
  outcome (handleVideoGenerate env state) = inr tt.
Proof. handler_paths env state. Qed.

Lemma no_dispatch_no_change (t : list Effect) (state : VideoGeneratorState) :
  forallb (fun e => negb (is_dispatch e)) t = true ->
  fold_left apply_effect t state = state.
Proof.
  induction t as [|e t IH]; simpl; intros H; [reflexivity|].
  apply andb_true_iff in H as [He Ht].
  destruct e; simpl in *; try discriminate; now apply IH.
Qed.

Lemma first_effect (env : Env) (state : VideoGeneratorState) :
  hd_error (trace (handleVideoGenerate env state)) =
  Some (if submit_eligible state then request state
        else alert validation_message).
Proof. handler_paths env state. Qed.

(** ** Numbers printed on the slider domains *)

Lemma range_cases (lo len : nat) (n : Z) :
  (Z.of_nat lo <= n < Z.of_nat (lo + len))%Z ->
  In n (map Z.of_nat (seq lo len)).
Proof.
  intros H. replace n with (Z.of_nat (Z.to_nat n)) by lia.
  apply in_map, in_seq. lia.
Qed.

Ltac by_cases H :=
  vm_compute in H;
  repeat (destruct H as [<-|H]; [vm_compute; repeat split; reflexivity|]);
  destruct H.

Lemma integers_print (n : Z) :
  (0 <= n <= 150)%Z -> Number_toString (Number_of_Z n) = digits n.
Proof.
  intros H. assert (Hc : In n (map Z.of_nat (seq 0 151))).
  { apply range_cases. lia. }
  by_cases Hc.
Qed.

Lemma quarters_print (k : Z) :
  (0 <= k <= 16)%Z ->
  Number_toString (Number_of_Z k / 4)%float = decimal_of_quarters k.
Proof.
  intros H. assert (Hc : In k (map Z.of_nat (seq 0 17))).
  { apply range_cases. lia. }
  by_cases Hc.
Qed.

(** ** The render request *)

(** C1. For a state with an audio file, a background image and
    non-empty lyrics, the request sent by [handleVideoGenerate] is a
    POST whose form data holds exactly the parts [music_file] (the audio
    file), [image_file] (the background file), [lyrics] (the text as it
    is), [font_size], [font_color], [font_name_ja], [font_name_en],
    [outline_color], [outline_size], [bottom_margin] and [enable_fade],
    numbers printed by [toString] and the flag as [true] or [false].
    For the sample job with the default settings the parts read
    [font_size=32], [font_name_ja=Noto Sans JP], [enable_fade=true].
    On the domains of the sliders [toString] gives the decimal numeral:
    the digits of an integer from 0 to 150, and for the quarters from 0
    to 4 the digits followed by [.25], [.5] or [.75]. *)
Theorem request_parts (env : Env) (state : VideoGeneratorState) (a b : File) :
  audioFile state = Some a ->
  backgroundImage state = Some b ->
  lyrics state <> "" ->
  hd_error (trace (handleVideoGenerate env state)) =
  Some (fetch "http://localhost:8000/create_video" "POST"
          [("music_file", FormFile a);
           ("image_file", FormFile b);
           ("lyrics", FormString (lyrics state));
           ("font_size",
            FormString (Number_toString (fontSize (settings state))));
           ("font_color", FormString (color (settings state)));
           ("font_name_ja", FormString (fontFamilyJa (settings state)));
           ("font_name_en", FormString (fontFamilyEn (settings state)));
           ("outline_color", FormString (outlineColor (settings state)));
           ("outline_size",
            FormString (Number_toString (outlineSize (settings state))));
           ("bottom_margin",
            FormString (Number_toString (bottomMargin (settings state))));
           ("enable_fade",
            FormString (if enableFade (settings state)
                        then "true" else "false"))])
  /\ hd_error (trace (handleVideoGenerate env Sample.job)) =
     Some (fetch "http://localhost:8000/create_video" "POST"
             [("music_file", FormFile Sample.audio);
              ("image_file", FormFile Sample.background);
              ("lyrics", FormString (lyrics Sample.job));
              ("font_size", FormString "32");
              ("font_color", FormString "#ffffff");
              ("font_name_ja", FormString "Noto Sans JP");
              ("font_name_en", FormString "Roboto");
              ("outline_color", FormString "#000000");
              ("outline_size", FormString "0");
              ("bottom_margin", FormString "50");
              ("enable_fade", FormString "true")])
  /\ (forall n : Z,
        (0 <= n <= 150)%Z -> Number_toString (Number_of_Z n) = digits n)
  /\ (forall k : Z,
        (0 <= k <= 16)%Z ->
        Number_toString (Number_of_Z k / 4)%float = decimal_of_quarters k).
Proof.
  intros Ha Hb Hl. split; [|split; [|split]].
  - rewrite first_effect.
    assert (Hm : submit_eligible state = true).
    { apply submit_eligible_true. eauto. }
    rewrite Hm. unfold request, build_formData, FormData_append.
    rewrite Ha, Hb. reflexivity.
  - rewrite first_effect. vm_compute. reflexivity.
  - exact integers_print.
  - exact quarters_print.
Qed.

Lemma request_parts_witness :
  hd_error (trace (handleVideoGenerate Sample.rendered_untyped Sample.job)) =
  Some (fetch "http://localhost:8000/create_video" "POST"
          [("music_file", FormFile Sample.audio);
           ("image_file", FormFile Sample.background);
           ("lyrics", FormString (lyrics Sample.job));
           ("font_size", FormString "32");
           ("font_color", FormString "#ffffff");
           ("font_name_ja", FormString "Noto Sans JP");
           ("font_name_en", FormString "Roboto");
           ("outline_color", FormString "#000000");
           ("outline_size", FormString "0");
           ("bottom_margin", FormString "50");
           ("enable_fade", FormString "true")]).
Proof.
  refine (proj1 (request_parts Sample.rendered_untyped Sample.job
                   Sample.audio Sample.background eq_refl eq_refl _)).
  discriminate.
Defined.

(** ** Submit-eligibility *)



(** C4. When the audio file is absent, the background image is absent
    or the lyrics are empty, the submit handler only shows the
    validation message and returns: its whole trace is that one alert,
    so no form data is built and no request is sent. *)
Theorem submit_rejected_early (env : Env) (state : VideoGeneratorState) :
  audioFile state = None \/ backgroundImage state = None \/ lyrics state = "" ->
  handleVideoGenerate env state = ([alert validation_message], inr tt)
  /\ (forall url method body,
        ~ In (fetch url method body) (trace (handleVideoGenerate env state))).
Proof.
  intros H. apply submit_eligible_false in H.
  rewrite (handle_missing env state H). split; [reflexivity|].
  intros url method body [Hin|[]]. discriminate.
Qed.

Lemma submit_rejected_early_witness :
  handleVideoGenerate Sample.rendered_untyped initialState =
  ([alert validation_message], inr tt).
Proof.
  apply (submit_rejected_early Sample.rendered_untyped initialState).
  left. reflexivity.
Defined.

(** ** The outcome of the request *)

(** C5. When the renderer answers with a status outside 200..299 and
    the body text [errorText], the handler raises an error whose message
    carries the status and that text; the error is logged and shown to
    the user in an alert, and nothing else happens: no object URL is
    created and no download is started.  A 500 answer with body
    [render failed] is reported as [500 render failed]. *)
Theorem error_status_reported (env : Env) (state : VideoGeneratorState)
    (r : Response) (errorText : string) :
  submit_eligible state = true ->
  fetch_result env = inr r ->
  ok r = false ->
  text r = inr errorText ->
  let message :=
    "動画生成に失敗しました: " ++ Number_toString (Number_of_N (status r)) ++
    " " ++ errorText in
  handleVideoGenerate env state =
  ([request state;
    console_error "動画生成エラー:" (ErrorObject message);
    alert ("エラーが発生しました: " ++ message)],
   inr tt)
  /\ (forall b, ~ In (createObjectURL b) (trace (handleVideoGenerate env state)))
  /\ (forall a, ~ In (click a) (trace (handleVideoGenerate env state)))
  /\ handleVideoGenerate Sample.render_failed Sample.job =
     ([request Sample.job;
       console_error "動画生成エラー:"
         (ErrorObject "動画生成に失敗しました: 500 render failed");
       alert "エラーが発生しました: 動画生成に失敗しました: 500 render failed"],
      inr tt).
Proof.
  intros Hm Hf Hok Ht message.
  rewrite (handle_not_ok env state r errorText Hm Hf Hok Ht).
  split; [reflexivity|]. split; [|split].
  - intros b [H|[H|[H|[]]]]; discriminate.
  - intros a [H|[H|[H|[]]]]; discriminate.
  - vm_compute. reflexivity.
Qed.

Lemma error_status_reported_witness :
  handleVideoGenerate Sample.render_failed Sample.job =
  ([request Sample.job;
    console_error "動画生成エラー:"
      (ErrorObject "動画生成に失敗しました: 500 render failed");
    alert "エラーが発生しました: 動画生成に失敗しました: 500 render failed"],
   inr tt).
Proof.
  apply (error_status_reported Sample.render_failed Sample.job
           {| status := 500; text := inr "render failed";
              blob := inr {| blob_type := "text/plain";
                             blob_bytes := "render failed" |} |}
           "render failed");
    reflexivity.
Defined.

(** C6. When the renderer answers with a status in 200..299 and a
    binary body, the handler takes the body whatever its declared type:
    it creates an object URL for the blob and clicks an anchor whose
    [download] name is the fixed [lyrics_video.mp4].  A declared type
    other than [video/mp4], so in particular any type that is not a
    video type, adds one [console.warn] and nothing else: no alert and
    no error is raised. *)
Theorem success_accepted (env : Env) (state : VideoGeneratorState)
    (r : Response) (videoBlob : Blob) :
  submit_eligible state = true ->
  fetch_result env = inr r ->
  ok r = true ->
  blob r = inr videoBlob ->
  let a := {| style_display := "none"; href := objectURL env;
              download := "lyrics_video.mp4" |} in
  let warning :=
    console_warn ("Expected video/mp4 but received " ++ blob_type videoBlob) in
  handleVideoGenerate env state =
  ((request state ::
    (if (blob_type videoBlob =? "video/mp4")%string then [] else [warning]) ++
    [createObjectURL videoBlob; appendChild a; click a;
     revokeObjectURL (objectURL env); removeChild a])%list,
   inr tt)
  /\ (is_video_type (blob_type videoBlob) = false ->
      handleVideoGenerate env state =
      ([request state; warning; createObjectURL videoBlob; appendChild a;
        click a; revokeObjectURL (objectURL env); removeChild a],
       inr tt))
  /\ (forall message,
        ~ In (alert message) (trace (handleVideoGenerate env state)))
  /\ (forall label error,
        ~ In (console_error label error)
             (trace (handleVideoGenerate env state))).
Proof.
  intros Hm Hf Hok Hb a warning.
  rewrite (handle_ok env state r videoBlob Hm Hf Hok Hb).
  fold a. fold warning.
  assert (Hv : is_video_type (blob_type videoBlob) = false ->
               (blob_type videoBlob =? "video/mp4")%string = false).
  { intros Hv. destruct (String.eqb_spec (blob_type videoBlob) "video/mp4")
      as [E|E]; [|reflexivity].
    rewrite E in Hv. discriminate. }
  split; [reflexivity|]. split; [|split].
  - intros H. now rewrite (Hv H).
  - intros message. unfold trace, fst.
    destruct (blob_type videoBlob =? "video/mp4")%string; simpl;
      intuition discriminate.
  - intros label error. unfold trace, fst.
    destruct (blob_type videoBlob =? "video/mp4")%string; simpl;
      intuition discriminate.
Qed.

Lemma success_accepted_witness :
  handleVideoGenerate Sample.rendered_untyped Sample.job =
  ([request Sample.job;
    console_warn "Expected video/mp4 but received application/octet-stream";
    createObjectURL Sample.payload;
    appendChild {| style_display := "none"; href := "blob:0";
                   download := "lyrics_video.mp4" |};
    click {| style_display := "none"; href := "blob:0";
             download := "lyrics_video.mp4" |};
    revokeObjectURL "blob:0";
    removeChild {| style_display := "none"; href := "blob:0";
                   download := "lyrics_video.mp4" |}],
   inr tt).
Proof.
  apply (proj1 (proj2
    (success_accepted Sample.rendered_untyped Sample.job
       {| status := 200; text := inr "...."; blob := inr Sample.payload |}
       Sample.payload eq_refl eq_refl eq_refl eq_refl))).
  reflexivity.
Defined.

(** ** The store *)

(** C10. The submit handler leaves the store as it found it: whatever
    the state and whatever the environment answers (a payload, an error
    status, no response at all), the state after the handler has run is
    the state before it, field by field. *)
Theorem submit_preserves_state (env : Env) (state : VideoGeneratorState) :
  let state' := run_handler state (handleVideoGenerate env state) in
  state' = state
  /\ audioFile state' = audioFile state
  /\ backgroundImage state' = backgroundImage state
  /\ lyrics state' = lyrics state
  /\ settings state' = settings state.
Proof.
  intros state'.
  assert (H : state' = state).
  { apply no_dispatch_no_change, handle_no_dispatch. }
  rewrite H. repeat split.
Qed.

(** ** Settings updates *)

Lemma after_updates_snoc (state : VideoGeneratorState)
    (patches : list Partial.SubtitleSettings) (p : Partial.SubtitleSettings) :
  after_updates state (patches ++ [p]) =
  reducer (after_updates state patches) (UPDATE_SETTINGS p).
Proof.
  unfold after_updates. rewrite fold_left_app. reflexivity.
Qed.

Section FieldOfSettings.

Context {A : Type}.
Variable field : SubtitleSettings -> A.
Variable get : Partial.SubtitleSettings -> option A.
Hypothesis field_of_spread :
  forall s p, field (spread_settings s p) = spread_property (field s) (get p).

Lemma field_after_updates (state : VideoGeneratorState)
    (patches : list Partial.SubtitleSettings) :
  last_named get patches
    (field (settings state))
    (field (settings (after_updates state patches))).
Proof.
  induction patches as [|p patches IH] using rev_ind.
  - right. split; [constructor | reflexivity].
  - rewrite after_updates_snoc. simpl. rewrite field_of_spread.
    destruct (get p) as [v|] eqn:Hp; simpl.
    + left. exists patches, p, [], v. repeat split; auto.
    + destruct IH as [(before & q & after & v & Hps & Hq & Hafter & Hv)
                     | [Hnone Hprior]].
      * left. exists before, q, (after ++ [p])%list, v.
        repeat split; auto.
        -- rewrite Hps, <- app_assoc. reflexivity.
        -- apply Forall_app. split; [exact Hafter | now constructor].
      * right. split; [|exact Hprior].
        apply Forall_app. split; [exact Hnone | now constructor].
Qed.

End FieldOfSettings.

Lemma spread_empty (s : SubtitleSettings) :
  spread_settings s Partial.empty = s.
Proof. destruct s; reflexivity. Qed.

(** C3. After any sequence of [updateSettings] calls, the empty one
    included, every field of the settings holds the value of the last
    patch that names it, and its value from before the sequence when no
    patch names it; the default values play no part.  The empty patch
    leaves the settings, and the whole state, as they are. *)
Theorem settings_after_updates (state : VideoGeneratorState)
    (patches : list Partial.SubtitleSettings) :
  let s := settings state in
  let s' := settings (after_updates state patches) in
  last_named Partial.fontFamilyJa patches (fontFamilyJa s) (fontFamilyJa s')
  /\ last_named Partial.fontFamilyEn patches (fontFamilyEn s) (fontFamilyEn s')
  /\ last_named Partial.fontSize patches (fontSize s) (fontSize s')
  /\ last_named Partial.color patches (color s) (color s')
  /\ last_named Partial.outlineColor patches (outlineColor s) (outlineColor s')
  /\ last_named Partial.outlineSize patches (outlineSize s) (outlineSize s')
  /\ last_named Partial.bottomMargin patches (bottomMargin s) (bottomMargin s')
  /\ last_named Partial.enableFade patches (enableFade s) (enableFade s')
  /\ settings (after_updates state []) = s
  /\ settings (run_handler state (updateSettings Partial.empty)) = s
  /\ run_handler state (updateSettings Partial.empty) = state.
Proof.
  intros s s'. subst s s'.
  repeat (split; [apply field_after_updates; reflexivity|]).
  split; [reflexivity|].
  unfold run_handler, updateSettings, emit, trace. simpl.
  rewrite spread_empty. split; [reflexivity | now destruct state].
Qed.

(** ** The subtitle styles of the preview *)

(** C7. The font size of the secondary (Latin) line is the text of
    [settings.fontSize / 2] followed by [px]; for every integer font
    size [n] from 16 to 72 that quotient is exactly [n / 2] and prints
    as its decimal numeral, with [.5] for an odd [n].  It follows the
    font size and nothing else: a patch that does not name [fontSize]
    leaves it as it is.  The bottom margin of the secondary line is
    [settings.bottomMargin] pixels, while the primary (Japanese) line
    has bottom margin 0 and a style that does not depend on
    [bottomMargin]. *)
Theorem secondary_subtitle (s : SubtitleSettings) :
  Css.fontSize (englishSubtitleStyle s) =
    Some (CssString
            (Number_toString (fontSize s / 2)%float ++ "px"))
  /\ (forall n : Z,
        (16 <= n <= 72)%Z ->
        fontSize s = Number_of_Z n ->
        exact_value (fontSize s / 2)%float = Some (Qred (n # 2))
        /\ Css.fontSize (englishSubtitleStyle s) =
           Some (CssString (decimal_of_half n ++ "px")))
  /\ (forall p : Partial.SubtitleSettings,
        Partial.fontSize p = None ->
        Css.fontSize (englishSubtitleStyle (spread_settings s p)) =
        Css.fontSize (englishSubtitleStyle s))
  /\ Css.marginBottom (englishSubtitleStyle s) =
       Some (CssString
               (Number_toString (bottomMargin s) ++ "px"))
  /\ Css.marginBottom (subtitleStyle s) =
       Some (CssNumber 0%float)
  /\ (forall m : Number,
        subtitleStyle (spread_settings s (Sample.margin_patch m)) =
        subtitleStyle s).
Proof.
  split; [reflexivity|]. split; [|split; [|split; [|split]]].
  - intros n Hn Hs.
    unfold englishSubtitleStyle, px, Css.fontSize.
    rewrite Hs. clear Hs s.
    assert (Hc : In n (map Z.of_nat (seq 16 57))).
    { apply range_cases. lia. }
    clear Hn. by_cases Hc.
  - intros p Hp. unfold englishSubtitleStyle, Css.fontSize.
    simpl. now rewrite Hp.
  - reflexivity.
  - reflexivity.
  - intros m. reflexivity.
Qed.

Lemma secondary_subtitle_witness :
  Css.fontSize (englishSubtitleStyle (settings initialState)) =
    Some (CssString "16px")
  /\ Css.fontSize
       (englishSubtitleStyle
          (spread_settings (settings initialState) (Sample.size_patch 33%float))) =
     Some (CssString "16.5px").
Proof.
  split.
  - apply (proj1 (proj2 (secondary_subtitle (settings initialState))) 32%Z).
    + lia.
    + reflexivity.
  - apply (proj1 (proj2 (secondary_subtitle
             (spread_settings (settings initialState) (Sample.size_patch 33%float))))
             33%Z).
    + lia.
    + reflexivity.
Defined.

(** ** The aspect ratio of the preview *)

Lemma revoke_removes (src : ObjectURL) (urls : list ObjectURL) :
  ~ In src (revoke src urls).
Proof.
  unfold revoke. intros H. apply filter_In in H as [_ H].
  now rewrite Nat.eqb_refl in H.
Qed.

Lemma forget_image_removes (src : ObjectURL) (l : list (ObjectURL * File)) :
  image_of_src src (forget_image src l) = None.
Proof.
  induction l as [|[u f] l IH]; simpl; [reflexivity|].
  destruct (Nat.eqb u src) eqn:E; simpl; [exact IH|].
  now rewrite E.
Qed.

Lemma image_of_src_app (src : ObjectURL) (l l' : list (ObjectURL * File))
    (file : File) :
  image_of_src src l = Some file ->
  image_of_src src (l ++ l') = Some file.
Proof.
  induction l as [|[u f] l IH]; simpl; [discriminate|].
  destruct (Nat.eqb u src); auto.
Qed.

Lemma images_run_cleanup (st : State) :
  images (run_cleanup st) = images st.
Proof. unfold run_cleanup. now destruct (cleanup st). Qed.

Lemma step_load (st : State) (src : ObjectURL) (file : File)
    (width height : N) :
  image_of_src src (images st) = Some file ->
  file_image file = Some (width, height) ->
  step st (ImageLoad src) = onload src width height st.
Proof. intros Hi Hf. simpl. now rewrite Hi, Hf. Qed.

Lemma image_of_src_in (src : ObjectURL) (l : list (ObjectURL * File))
    (file : File) :
  image_of_src src l = Some file -> In (src, file) l.
Proof.
  induction l as [|[u f] l IH]; simpl; [discriminate|].
  destruct (Nat.eqb_spec u src) as [->|Hne]; intros H.
  - injection H as ->. now left.
  - right. now apply IH.
Qed.

Lemma outstanding_forget (src : ObjectURL) (l : list (ObjectURL * File)) :
  filter decodes (forget_image src l) = forget_image src (filter decodes l).
Proof.
  unfold forget_image.
  induction l as [|uf l IH]; [reflexivity|]. cbn [filter].
  destruct (decodes uf) eqn:E2;
    destruct (Nat.eqb (@fst nat File uf) src) eqn:E1;
    cbn [filter negb]; rewrite ?E1, ?E2; cbn [negb]; rewrite IH; reflexivity.
Qed.

Lemma settled_mount (backgroundImage : option File) :
  settled (mount backgroundImage).
Proof.
  destruct backgroundImage as [file|]; [|reflexivity].
  unfold settled, outstanding, decodes. simpl.
  destruct (file_image file) as [[w h]|] eqn:E; simpl; [reflexivity|].
  intros width height H. discriminate H.
Qed.

Lemma settled_step (st : State) (ev : Event) :
  settled st ->
  match ev with
  | Rerender backgroundImage =>
      same_object (props_backgroundImage st) backgroundImage = true \/
      outstanding st = []
  | ImageLoad _ => True
  end ->
  settled (step st ev).
Proof.
  intros Hs Hev. destruct ev as [bg|src]; simpl.
  - destruct (same_object (props_backgroundImage st) bg) eqn:Hsame;
      [exact Hs|].
    destruct Hev as [Hev|Hev]; [discriminate Hev|].
    unfold outstanding in Hev.
    destruct bg as [file|]; unfold settled, outstanding; simpl;
      rewrite images_run_cleanup.
    + rewrite filter_app, Hev. simpl. unfold decodes at 1. simpl.
      destruct (file_image file) as [[w h]|] eqn:E; simpl; [reflexivity|].
      intros width height H. discriminate H.
    + now rewrite Hev.
  - destruct (image_of_src src (images st)) as [file|] eqn:Hi; [|exact Hs].
    destruct (file_image file) as [[w h]|] eqn:Hf; [|exact Hs].
    assert (Hin : In (src, file) (outstanding st)).
    { apply filter_In. split; [now apply image_of_src_in|].
      unfold decodes. simpl. now rewrite Hf. }
    unfold settled in *.
    destruct (outstanding st) as [|[u f] [|]] eqn:Ho.
    + destruct Hin.
    + destruct Hin as [Hin|[]]. injection Hin as -> ->.
      unfold outstanding in *. simpl.
      rewrite outstanding_forget, Ho. unfold forget_image. simpl.
      rewrite Nat.eqb_refl. simpl. rewrite Hs.
      intros w' h' H'. rewrite Hf in H'. now injection H' as <- <-.
    + destruct Hs.
Qed.

Lemma settled_run (evs : list Event) :
  forall st, settled st -> orderly st evs -> settled (run st evs).
Proof.
  induction evs as [|ev evs IH]; simpl; intros st Hs Ho; [exact Hs|].
  destruct Ho as [Hev Ho]. apply IH; [|exact Ho].
  now apply settled_step.
Qed.

Lemma two_is_not_the_default :
  (Number_of_N 1000 / Number_of_N 500)%float <> default_aspectRatio.
Proof.
  intros H.
  apply (f_equal (fun x => PrimFloat.eqb x 2%float)) in H.
  vm_compute in H. discriminate.
Qed.

(** C8, as stated, fails: when the background is set and cleared again
    before its decode has ended, the late result leaves the preview
    without an image and with aspect ratio 2. *)
Lemma aspect_ratio_follows_image_fails :
  props_backgroundImage (run (mount None) Sample.cleared_early) = None
  /\ aspectRatio (run (mount None) Sample.cleared_early) = 2%float
  /\ ~ aspect_ratio_follows_image.
Proof.
  split; [reflexivity|]. split; [vm_compute; reflexivity|].
  intros H. specialize (H Sample.cleared_early).
  apply two_is_not_the_default. exact H.
Qed.

(** C8, amended. When the decode of a background image ends, the aspect
    ratio becomes the image's width divided by its height, and 1920 by
    1080 gives the very Number [16 / 9].  The ratio is [16 / 9] when the
    preview is mounted without an image and at the moment the image is
    cleared.  In a run where the image is replaced or cleared only when
    no decode is outstanding, whenever no decode is outstanding the
    ratio is that of the present image, and [16 / 9] without one.  A
    decode is outstanding from the start of the image to its load
    event; renders that keep the image may come at any moment, and a
    file that does not decode leaves nothing outstanding. *)
Theorem aspect_ratio_derivation :
  (forall (st : State) (src : ObjectURL) (file : File) (width height : N),
      image_of_src src (images st) = Some file ->
      file_image file = Some (width, height) ->
      aspectRatio (step st (ImageLoad src)) =
      (Number_of_N width / Number_of_N height)%float)
  /\ (Number_of_N 1920 / Number_of_N 1080)%float = (16 / 9)%float
  /\ aspectRatio (mount None) = (16 / 9)%float
  /\ (forall (st : State) (file : File),
        props_backgroundImage st = Some file ->
        aspectRatio (step st (Rerender None)) = (16 / 9)%float)
  /\ (forall (backgroundImage : option File) (evs : list Event),
        orderly (mount backgroundImage) evs ->
        let st := run (mount backgroundImage) evs in
        outstanding st = [] ->
        match props_backgroundImage st with
        | Some file =>
            forall width height,
              file_image file = Some (width, height) ->
              aspectRatio st = (Number_of_N width / Number_of_N height)%float
        | None => aspectRatio st = (16 / 9)%float
        end).
Proof.
  split; [|split; [|split; [|split]]].
  - intros st src file width height Hi Hf.
    now rewrite (step_load st src file width height Hi Hf).
  - vm_compute. reflexivity.
  - reflexivity.
  - intros st file Hp. simpl. rewrite Hp. reflexivity.
  - intros bg evs Ho st Hi.
    pose proof (settled_run evs (mount bg) (settled_mount bg) Ho) as Hs.
    fold st in Hs. unfold settled in Hs. rewrite Hi in Hs. exact Hs.
Qed.

Lemma aspect_ratio_derivation_witness :
  aspectRatio (step (mount (Some Sample.wide)) (ImageLoad 0)) = (16 / 9)%float
  /\ aspectRatio (step (step (mount None) (Rerender (Some Sample.background)))
                       (Rerender None)) = (16 / 9)%float
  /\ aspectRatio (run (mount None) Sample.in_turn) = (16 / 9)%float
  /\ aspectRatio (run (mount None) Sample.with_renders) = 2%float.
Proof.
  split; [|split; [|split]].
  - apply (proj1 aspect_ratio_derivation
             (mount (Some Sample.wide)) 0 Sample.wide 1920%N 1080%N);
      reflexivity.
  - apply (proj1 (proj2 (proj2 (proj2 aspect_ratio_derivation)))
             (step (mount None) (Rerender (Some Sample.background)))
             Sample.background).
    reflexivity.
  - apply (proj2 (proj2 (proj2 (proj2 aspect_ratio_derivation)))
             None Sample.in_turn).
    + simpl. repeat split; right; reflexivity.
    + reflexivity.
  - refine (proj2 (proj2 (proj2 (proj2 aspect_ratio_derivation)))
              None Sample.with_renders _ eq_refl 1000%N 500%N eq_refl).
    simpl. repeat split; first [left; reflexivity | right; reflexivity].
Defined.

(** C9, as stated, fails: the background is replaced while its decode
    is under way, the new image is decoded, and the result of the first
    decode, arriving last, still sets the aspect ratio, to 2, while the
    current image is 1920 by 1080. *)
Lemma late_results_discarded_fails :
  (let st := run (mount None) Sample.replaced_early in
   props_backgroundImage st = Some Sample.wide
   /\ image_of_src 0 (images st) = Some Sample.background
   /\ aspectRatio st = (16 / 9)%float
   /\ aspectRatio (step st (ImageLoad 0)) = 2%float)
  /\ ~ late_results_discarded.
Proof.
  split.
  - repeat split; vm_compute; reflexivity.
  - intros H.
    specialize (H Sample.replaced_early 0 Sample.background eq_refl eq_refl).
    apply two_is_not_the_default.
    transitivity (aspectRatio (run (mount None) Sample.replaced_early)).
    + exact H.
    + vm_compute. reflexivity.
Qed.

(** C9, amended. A decode is tied to the object URL and the file it was
    started from, and to nothing else.  When its result arrives, the
    handler sets the aspect ratio to the width of that file's image
    divided by its height and revokes that URL, without looking at the
    current background image, which it leaves as it is.  Replacing or
    clearing the background image does not cancel a decode under way:
    the image stays registered with its URL and its file. *)
Theorem decode_result_applied (st : State) (src : ObjectURL) (file : File)
    (width height : N) :
  image_of_src src (images st) = Some file ->
  file_image file = Some (width, height) ->
  let st' := step st (ImageLoad src) in
  aspectRatio st' = (Number_of_N width / Number_of_N height)%float
  /\ ~ In src (object_urls st')
  /\ image_of_src src (images st') = None
  /\ props_backgroundImage st' = props_backgroundImage st
  /\ backgroundUrl st' = backgroundUrl st
  /\ (forall backgroundImage : option File,
        image_of_src src (images (step st (Rerender backgroundImage))) =
        Some file).
Proof.
  intros Hi Hf st'. subst st'.
  rewrite (step_load st src file width height Hi Hf).
  split; [reflexivity|]. split; [apply revoke_removes|].
  split; [apply forget_image_removes|].
  split; [reflexivity|]. split; [reflexivity|].
  intros bg. simpl.
  destruct (same_object (props_backgroundImage st) bg); [exact Hi|].
  destruct bg as [f|]; simpl; rewrite images_run_cleanup; [|exact Hi].
  now apply image_of_src_app.
Qed.

Lemma decode_result_applied_witness :
  aspectRatio
    (step (run (mount None) Sample.replaced_early) (ImageLoad 0)) = 2%float.
Proof.
  apply (decode_result_applied (run (mount None) Sample.replaced_early)
           0 Sample.background 1000%N 500%N);
    reflexivity.
Defined.

(* ================================================================== *)
(** * Further properties of the store *)
(* ================================================================== *)

Lemma settings_of_reducer (state : VideoGeneratorState) (a : ActionType) :
  settings (reducer state a) =
  match a with
  | UPDATE_SETTINGS p => spread_settings (settings state) p
  | _ => settings state
  end.
Proof. destruct a; reflexivity. Qed.

Lemma fields_after_actions (state : VideoGeneratorState)
    (actions : list ActionType) :
  audioFile (fold_left reducer actions state) =
    last (audio_writes actions) (audioFile state)
  /\ backgroundImage (fold_left reducer actions state) =
     last (image_writes actions) (backgroundImage state)
  /\ lyrics (fold_left reducer actions state) =
     last (lyrics_writes actions) (lyrics state)
  /\ settings (fold_left reducer actions state) =
     settings (after_updates state (settings_patches actions)).
Proof.
  induction actions as [|a actions IH] using rev_ind.
  - simpl. repeat split.
  - destruct IH as (Ha & Hb & Hl & Hs).
    unfold audio_writes, image_writes, lyrics_writes, settings_patches in *.
    rewrite fold_left_app, !flat_map_app. simpl fold_left.
    destruct a as [p|p|p|p]; simpl flat_map; rewrite ?app_nil_r;
      rewrite ?last_last; simpl reducer; simpl; repeat split; auto.
    rewrite after_updates_snoc. simpl. now rewrite Hs.
Qed.

(** X1. After any sequence of actions, each of the audio file, the
    background image and the lyrics is the payload of the last action
    of its kind, or its former value when there was none, and the
    settings are those produced by the settings patches alone: actions
    of one kind never disturb the fields of another. *)
Theorem store_last_write (state : VideoGeneratorState)
    (actions : list ActionType) :
  let state' := fold_left reducer actions state in
  audioFile state' = last (audio_writes actions) (audioFile state)
  /\ backgroundImage state' =
     last (image_writes actions) (backgroundImage state)
  /\ lyrics state' = last (lyrics_writes actions) (lyrics state)
  /\ settings state' =
     settings (after_updates state (settings_patches actions)).
Proof. exact (fields_after_actions state actions). Qed.

Lemma spread_property_merge {A : Type} (a : A) (b c : option A) :
  spread_property (spread_property a b) c =
  spread_property a (merge_property b c).
Proof. destruct c; reflexivity. Qed.

Lemma spread_property_twice {A : Type} (a : A) (b : option A) :
  spread_property (spread_property a b) b = spread_property a b.
Proof. destruct b; reflexivity. Qed.

Lemma spread_property_swap {A : Type} (a : A) (b c : option A) :
  one_absent b c ->
  spread_property (spread_property a b) c =
  spread_property (spread_property a c) b.
Proof. intros [-> | ->]; [destruct c | destruct b]; reflexivity. Qed.

(** X2. Two settings updates in a row amount to one update with the
    merged patch [{ ...p, ...q }]; in particular an update applied
    twice is the update applied once. *)
Theorem updates_merge (state : VideoGeneratorState)
    (p q : Partial.SubtitleSettings) :
  reducer (reducer state (UPDATE_SETTINGS p)) (UPDATE_SETTINGS q) =
  reducer state (UPDATE_SETTINGS (merge_patches p q))
  /\ reducer (reducer state (UPDATE_SETTINGS p)) (UPDATE_SETTINGS p) =
     reducer state (UPDATE_SETTINGS p).
Proof.
  split; simpl; f_equal; unfold spread_settings, merge_patches; simpl.
  - now rewrite !spread_property_merge.
  - now rewrite !spread_property_twice.
Qed.

(** X3. Two settings updates that name no field in common can be
    applied in either order. *)
Theorem disjoint_updates_commute (state : VideoGeneratorState)
    (p q : Partial.SubtitleSettings) :
  disjoint_patches p q ->
  reducer (reducer state (UPDATE_SETTINGS p)) (UPDATE_SETTINGS q) =
  reducer (reducer state (UPDATE_SETTINGS q)) (UPDATE_SETTINGS p).
Proof.
  intros (H1 & H2 & H3 & H4 & H5 & H6 & H7 & H8).
  simpl. f_equal. unfold spread_settings. simpl.
  f_equal; now apply spread_property_swap.
Qed.

Lemma disjoint_updates_commute_witness :
  reducer (reducer initialState (UPDATE_SETTINGS (Sample.size_patch 40%float)))
          (UPDATE_SETTINGS (Sample.margin_patch 10%float)) =
  reducer (reducer initialState (UPDATE_SETTINGS (Sample.margin_patch 10%float)))
          (UPDATE_SETTINGS (Sample.size_patch 40%float)).
Proof.
  apply (disjoint_updates_commute initialState
           (Sample.size_patch 40%float) (Sample.margin_patch 10%float)).
  unfold disjoint_patches, one_absent. simpl. tauto.
Defined.

(** X4. The submit button is enabled after a sequence of actions
    exactly when the last audio write and the last image write, if any,
    put a file, and the last lyrics write put a non-empty string, the
    former values counting where nothing was written; settings updates
    have no say in it. *)
Theorem button_after_actions (state : VideoGeneratorState)
    (actions : list ActionType) :
  (button_disabled (render (fold_left reducer actions state)) = false <->
   last (audio_writes actions) (audioFile state) <> None /\
   last (image_writes actions) (backgroundImage state) <> None /\
   last (lyrics_writes actions) (lyrics state) <> "")
  /\ (forall p : Partial.SubtitleSettings,
        button_disabled (render (reducer state (UPDATE_SETTINGS p))) =
        button_disabled (render state)).
Proof.
  split; [|reflexivity].
  destruct (fields_after_actions state actions) as (Ha & Hb & Hl & _).
  rewrite <- Ha, <- Hb, <- Hl.
  set (state' := fold_left reducer actions state).
  unfold render. cbn [button_disabled].
  rewrite guard_eligible, negb_false_iff, submit_eligible_true.
  split.
  - intros ([a Ea] & [b Eb] & Hn). rewrite Ea, Eb. repeat split; congruence.
  - intros (Ea & Eb & Hn).
    destruct (audioFile _) as [a|]; [|congruence].
    destruct (backgroundImage _) as [b|]; [|congruence].
    eauto.
Qed.

Lemma button_after_actions_witness :
  button_disabled
    (render
       (fold_left reducer
          [SET_LYRICS "la la";
           SET_AUDIO_FILE (Some Sample.audio);
           UPDATE_SETTINGS (Sample.size_patch 40%float);
           SET_BACKGROUND_IMAGE (Some Sample.background)]
          initialState)) = false.
Proof.
  apply (proj2 (proj1 (button_after_actions initialState
           [SET_LYRICS "la la";
            SET_AUDIO_FILE (Some Sample.audio);
            UPDATE_SETTINGS (Sample.size_patch 40%float);
            SET_BACKGROUND_IMAGE (Some Sample.background)]))).
  repeat split; discriminate.
Defined.

(* ================================================================== *)
(** * Further properties of the submit handler *)
(* ================================================================== *)

(** The handler, path by path. *)
Lemma handler_cases (env : Env) (state : VideoGeneratorState) :
  handleVideoGenerate env state =
  if submit_eligible state then
    match fetch_result env with
    | inl e => failure_run state e
    | inr r =>
        if ok r then
          match blob r with
          | inl e => failure_run state e
          | inr b =>
              ((request state ::
                (if (blob_type b =? "video/mp4")%string then []
                 else [console_warn (unexpected_type_message b)]) ++
                download_steps env b)%list, inr tt)
          end
        else
          match text r with
          | inl e => failure_run state e
          | inr errorText =>
              failure_run state
                (ErrorObject (request_failed_message r errorText))
          end
    end
  else ([alert validation_message], inr tt).
Proof. handler_paths env state. Qed.

(** X5. When the fetch is rejected, no response having been obtained,
    the handler logs the thrown value and shows one alert: the message
    of the error, which carries no status, or the fixed text for an
    unknown error when the value is not an [Error].  No download is
    started. *)
Theorem network_failure_reported (env : Env) (state : VideoGeneratorState)
    (e : Thrown) :
  submit_eligible state = true ->
  fetch_result env = inl e ->
  handleVideoGenerate env state =
  ([request state;
    console_error "動画生成エラー:" e;
    match e with
    | ErrorObject message => alert ("エラーが発生しました: " ++ message)
    | OtherValue => alert "不明なエラーが発生しました。"
    end], inr tt)
  /\ count is_download_step (trace (handleVideoGenerate env state)) = 0.
Proof.
  intros He Hf. rewrite handler_cases, He, Hf.
  split; [reflexivity | now destruct e].
Qed.

Lemma network_failure_reported_witness :
  handleVideoGenerate Sample.unreachable Sample.job =
  ([request Sample.job;
    console_error "動画生成エラー:" (ErrorObject "Failed to fetch");
    alert "エラーが発生しました: Failed to fetch"], inr tt).
Proof.
  apply (network_failure_reported Sample.unreachable Sample.job
           (ErrorObject "Failed to fetch") eq_refl eq_refl).
Defined.

(** X6. When the body of the response cannot be read, the handler ends
    in the same [catch] clause with the error of the read: for an error
    status the alert then shows that error and not the status, and for
    a success status nothing is downloaded. *)
Theorem unreadable_body_reported (env : Env) (state : VideoGeneratorState)
    (r : Response) (e : Thrown) :
  submit_eligible state = true ->
  fetch_result env = inr r ->
  (ok r = false /\ text r = inl e) \/ (ok r = true /\ blob r = inl e) ->
  handleVideoGenerate env state =
  ([request state; console_error "動画生成エラー:" e; failure_alert e], inr tt).
Proof.
  intros He Hf [[Hok Hr] | [Hok Hr]]; rewrite handler_cases, He, Hf, Hok, Hr;
    reflexivity.
Qed.

Lemma unreadable_body_reported_witness :
  handleVideoGenerate
    {| fetch_result :=
         inr {| status := 502;
                text := inl (ErrorObject "network error");
                blob := inl (ErrorObject "network error") |};
       objectURL := "blob:0" |}
    Sample.job =
  ([request Sample.job;
    console_error "動画生成エラー:" (ErrorObject "network error");
    alert "エラーが発生しました: network error"], inr tt).
Proof.
  apply (unreadable_body_reported
           {| fetch_result :=
                inr {| status := 502;
                       text := inl (ErrorObject "network error");
                       blob := inl (ErrorObject "network error") |};
              objectURL := "blob:0" |}
           Sample.job
           {| status := 502;
              text := inl (ErrorObject "network error");
              blob := inl (ErrorObject "network error") |}
           (ErrorObject "network error") eq_refl eq_refl).
  left. split; reflexivity.
Defined.

(** X7. Whatever the state and whatever the environment answers, the
    handler returns without throwing, sends one request when the state
    is eligible and none otherwise, and ends in exactly one of two
    ways: one alert, or one click on the download anchor.  The click
    happens exactly when the state is eligible, the response has a
    success status and its body can be read as a blob. *)
Theorem one_outcome (env : Env) (state : VideoGeneratorState) :
  let t := trace (handleVideoGenerate env state) in
  outcome (handleVideoGenerate env state) = inr tt
  /\ count is_fetch t = (if submit_eligible state then 1 else 0)
  /\ count is_alert t + count is_click t = 1
  /\ (count is_click t = 1 <->
      submit_eligible state = true /\
      exists r b, fetch_result env = inr r /\ ok r = true /\ blob r = inr b).
Proof.
  cbv zeta. rewrite handler_cases.
  destruct (submit_eligible state).
  2: { repeat split; try reflexivity; try discriminate.
       intros [H _]; discriminate H. }
  destruct (fetch_result env) as [e|r] eqn:Hf.
  { destruct e; repeat split; try reflexivity; try discriminate;
      intros (_ & r & b & H & _); discriminate H. }
  destruct (ok r) eqn:Hok.
  - destruct (blob r) as [e|b] eqn:Hb.
    + destruct e; repeat split; try reflexivity; try discriminate;
        intros (_ & r' & b' & H1 & _ & H3); congruence.
    + destruct (blob_type b =? "video/mp4")%string;
        repeat split; try reflexivity; eauto.
  - destruct (text r) as [e|errorText].
    + destruct e; repeat split; try reflexivity; try discriminate;
        intros (_ & r' & b' & H1 & H2 & _); congruence.
    + repeat split; try reflexivity; try discriminate;
        intros (_ & r' & b' & H1 & H2 & _); congruence.
Qed.

Lemma one_outcome_witness :
  count is_click
    (trace (handleVideoGenerate Sample.rendered_untyped Sample.job)) = 1.
Proof.
  apply (proj2 (proj2 (proj2 (proj2
           (one_outcome Sample.rendered_untyped Sample.job))))).
  split; [reflexivity|].
  exists {| status := 200; text := inr "...."; blob := inr Sample.payload |},
         Sample.payload.
  repeat split.
Defined.

(** X8. The only effects of the handler on object URLs and on the
    document are those of one download, in this order: the URL is
    created, the anchor appended and clicked, the URL revoked, the
    anchor removed.  So an object URL the handler creates is always
    revoked and an anchor it appends is always removed. *)
Theorem download_cleans_up (env : Env) (state : VideoGeneratorState) :
  let steps := filter is_download_step (trace (handleVideoGenerate env state)) in
  let a := {| style_display := "none"; href := objectURL env;
              download := "lyrics_video.mp4" |} in
  steps = []
  \/ exists b : Blob,
       steps = [createObjectURL b; appendChild a; click a;
                revokeObjectURL (objectURL env); removeChild a].
Proof.
  cbv zeta. rewrite handler_cases.
  destruct (submit_eligible state); [|now left].
  destruct (fetch_result env) as [e|r]; [destruct e; now left|].
  destruct (ok r).
  - destruct (blob r) as [e|b]; [destruct e; now left|].
    right. exists b.
    destruct (blob_type b =? "video/mp4")%string; reflexivity.
  - destruct (text r) as [e|errorText]; [destruct e; now left | now left].
Qed.

(* ================================================================== *)
(** * Properties of the lyrics input *)
(* ================================================================== *)

Lemma split_not_nil (sep : ascii) (value : string) :
  LyricsInput.split sep value <> [].
Proof.
  destruct value as [|c rest]; simpl; [discriminate|].
  destruct (Ascii.eqb c sep); [discriminate|].
  destruct (LyricsInput.split sep rest); discriminate.
Qed.

Lemma line_feeds_append (a b : string) :
  line_feeds (a ++ b) = line_feeds a + line_feeds b.
Proof.
  induction a as [|c a IH]; [reflexivity|].
  change (String c a ++ b) with (String c (a ++ b)).
  simpl. rewrite IH. lia.
Qed.

Lemma line_count_feeds (value : string) :
  LyricsInput.line_count value = S (line_feeds value).
Proof.
  unfold LyricsInput.line_count.
  induction value as [|c rest IH]; [reflexivity|].
  simpl. destruct (Ascii.eqb c LyricsInput.line_feed); simpl.
  - now rewrite IH.
  - destruct (LyricsInput.split LyricsInput.line_feed rest) as [|p ps] eqn:E;
      [now elim (split_not_nil _ _ E) | exact IH].
Qed.

(** X9. The number of lines shown under the textarea is one more than
    the number of line feeds in the lyrics: it is 1 for the empty
    string, a trailing line feed counts as one more (empty) line, and
    the count of two texts joined by a line feed is the sum of their
    counts. *)
Theorem line_count_law (value other : string) :
  LyricsInput.line_count value = S (line_feeds value)
  /\ LyricsInput.line_count "" = 1
  /\ LyricsInput.line_count (value ++ String LyricsInput.line_feed "") =
     S (LyricsInput.line_count value)
  /\ LyricsInput.line_count
       (value ++ String LyricsInput.line_feed other) =
     LyricsInput.line_count value + LyricsInput.line_count other.
Proof.
  split; [apply line_count_feeds|]. split; [reflexivity|].
  rewrite !line_count_feeds, !line_feeds_append.
  cbn [line_feeds]. rewrite Ascii.eqb_refl. split; lia.
Qed.

Lemma join_cons (sep : ascii) (piece : string) (pieces : list string) :
  pieces <> [] ->
  join sep (piece :: pieces) = piece ++ String sep (join sep pieces).
Proof. destruct pieces; [intros H; now elim H | reflexivity]. Qed.

Lemma join_split (sep : ascii) (value : string) :
  join sep (LyricsInput.split sep value) = value.
Proof.
  induction value as [|c rest IH]; [reflexivity|].
  simpl. destruct (Ascii.eqb_spec c sep) as [->|Hc].
  - rewrite join_cons by apply split_not_nil. now rewrite IH.
  - destruct (LyricsInput.split sep rest) as [|p ps] eqn:E;
      [now elim (split_not_nil _ _ E)|].
    rewrite <- IH. destruct ps; reflexivity.
Qed.

Lemma split_pieces_clean (sep : ascii) (value : string) :
  Forall (fun piece => contains sep piece = false)
         (LyricsInput.split sep value).
Proof.
  induction value as [|c rest IH]; simpl; [repeat constructor|].
  destruct (Ascii.eqb c sep) eqn:Hc; [constructor; [reflexivity | exact IH]|].
  destruct (LyricsInput.split sep rest) as [|p ps];
    [repeat constructor; simpl; now rewrite Hc|].
  inversion IH as [|? ? Hp Hps]; subst.
  constructor; [simpl; now rewrite Hc, Hp | exact Hps].
Qed.

Lemma split_clean_append (sep : ascii) (piece rest : string) :
  contains sep piece = false ->
  LyricsInput.split sep (piece ++ String sep rest) =
  piece :: LyricsInput.split sep rest.
Proof.
  induction piece as [|c piece IH]; intros H.
  - simpl. now rewrite Ascii.eqb_refl.
  - change (String c piece ++ String sep rest)
      with (String c (piece ++ String sep rest)).
    simpl in *. apply orb_false_iff in H as [Hc Hp].
    rewrite Hc, (IH Hp). reflexivity.
Qed.

Lemma split_clean (sep : ascii) (piece : string) :
  contains sep piece = false -> LyricsInput.split sep piece = [piece].
Proof.
  induction piece as [|c piece IH]; intros H; [reflexivity|].
  simpl in *. apply orb_false_iff in H as [Hc Hp].
  now rewrite Hc, (IH Hp).
Qed.

(** X10. Splitting at line feeds loses nothing: joining the lines with
    line feeds gives the lyrics back, and no line holds a line feed.
    Conversely, lines without line feeds, at least one of them, are
    what the split of their join returns. *)
Theorem split_join_round_trip (value : string) (pieces : list string) :
  join LyricsInput.line_feed
       (LyricsInput.split LyricsInput.line_feed value) = value
  /\ Forall (fun piece => contains LyricsInput.line_feed piece = false)
            (LyricsInput.split LyricsInput.line_feed value)
  /\ (pieces <> [] ->
      Forall (fun piece => contains LyricsInput.line_feed piece = false)
             pieces ->
      LyricsInput.split LyricsInput.line_feed
        (join LyricsInput.line_feed pieces) = pieces).
Proof.
  split; [apply join_split|]. split; [apply split_pieces_clean|].
  induction pieces as [|p ps IH]; intros Hne Hall; [now elim Hne|].
  inversion Hall as [|? ? Hp Hps]; subst.
  destruct ps as [|q ps].
  - simpl. now apply split_clean.
  - rewrite join_cons by discriminate.
    rewrite split_clean_append by exact Hp.
    f_equal. apply IH; [discriminate | exact Hps].
Qed.

Lemma split_join_round_trip_witness :
  LyricsInput.split LyricsInput.line_feed
    (join LyricsInput.line_feed ["line1"; ""; "line3"]) =
  ["line1"; ""; "line3"].
Proof.
  apply (proj2 (proj2 (split_join_round_trip "" ["line1"; ""; "line3"]))).
  - discriminate.
  - repeat constructor.
Defined.

(* ================================================================== *)
(** * Properties of the upload widgets *)
(* ================================================================== *)

(** X11. A drop with no accepted file leaves the store as it is.  A
    drop with accepted files stores the first of them, and only that
    one, in the field of the widget (the audio file for the audio
    widget, the background image for the image widget) and leaves the
    other fields alone.  A drop never empties a field. *)
Theorem drop_stores_first (state : VideoGeneratorState)
    (acceptedFiles : list File) :
  let audio := run_handler state
                 (FileUpload.onDrop handleAudioUpload acceptedFiles) in
  let image := run_handler state
                 (FileUpload.onDrop handleBackgroundUpload acceptedFiles) in
  (acceptedFiles = [] -> audio = state /\ image = state)
  /\ (forall f rest,
        acceptedFiles = f :: rest ->
        audio = {| audioFile := Some f;
                   backgroundImage := backgroundImage state;
                   lyrics := lyrics state;
                   settings := settings state |}
        /\ image = {| audioFile := audioFile state;
                      backgroundImage := Some f;
                      lyrics := lyrics state;
                      settings := settings state |})
  /\ (audioFile state <> None -> audioFile audio <> None)
  /\ (backgroundImage state <> None -> backgroundImage image <> None).
Proof.
  cbv zeta. destruct acceptedFiles as [|f0 rest0].
  - split; [intros _; split; reflexivity|].
    split; [intros f rest H; discriminate H|]. split; intros H; exact H.
  - split; [intros H; discriminate H|].
    split; [intros f rest H; injection H as <- <-; split; reflexivity|].
    split; intros _; discriminate.
Qed.

Lemma drop_stores_first_witness :
  run_handler initialState
    (FileUpload.onDrop handleAudioUpload [Sample.audio; Sample.background]) =
  {| audioFile := Some Sample.audio;
     backgroundImage := None;
     lyrics := "";
     settings := settings initialState |}.
Proof.
  apply (proj1 (proj2 (drop_stores_first initialState
                         [Sample.audio; Sample.background]))
           Sample.audio [Sample.background] eq_refl).
Defined.

(** X12. The clear button of an upload widget stops the click from
    reaching the drop zone around it and empties the field of the
    widget; whatever the rest of the state, the submit button is
    disabled afterwards. *)
Theorem clear_disables_submit (state : VideoGeneratorState)
    (e : FileUpload.MouseEvent) :
  let audio := FileUpload.handleClearFile handleAudioUpload e in
  let image := FileUpload.handleClearFile handleBackgroundUpload e in
  FileUpload.propagation_stopped (fst audio) = true
  /\ FileUpload.propagation_stopped (fst image) = true
  /\ audioFile (run_handler state (snd audio)) = None
  /\ backgroundImage (run_handler state (snd image)) = None
  /\ button_disabled (render (run_handler state (snd audio))) = true
  /\ button_disabled (render (run_handler state (snd image))) = true
  /\ submit_eligible (run_handler state (snd audio)) = false
  /\ submit_eligible (run_handler state (snd image)) = false.
Proof.
  cbv zeta. repeat split; try reflexivity.
  - simpl. now destruct (audioFile state).
  - unfold submit_eligible. simpl. now destruct (audioFile state).
Qed.

(* ================================================================== *)
(** * Properties of the settings panel *)
(* ================================================================== *)

(** X13. Working one control of the panel changes the one field of the
    settings that belongs to it, to the value the control hands over,
    and nothing else in the store. *)
Theorem control_changes_one_field (state : VideoGeneratorState)
    (c : SubtitleSettingsPanel.Change) :
  let state' :=
    run_handler state (SubtitleSettingsPanel.handle updateSettings c) in
  let s := settings state in
  audioFile state' = audioFile state
  /\ backgroundImage state' = backgroundImage state
  /\ lyrics state' = lyrics state
  /\ settings state' =
     {| fontFamilyJa :=
          match c with
          | SubtitleSettingsPanel.SelectFontFamilyJa v => v
          | _ => fontFamilyJa s
          end;
        fontFamilyEn :=
          match c with
          | SubtitleSettingsPanel.SelectFontFamilyEn v => v
          | _ => fontFamilyEn s
          end;
        fontSize :=
          match c with
          | SubtitleSettingsPanel.SlideFontSize v => v
          | _ => fontSize s
          end;
        color :=
          match c with
          | SubtitleSettingsPanel.PickColor v => v
          | _ => color s
          end;
        outlineColor :=
          match c with
          | SubtitleSettingsPanel.PickOutlineColor v => v
          | _ => outlineColor s
          end;
        outlineSize :=
          match c with
          | SubtitleSettingsPanel.SlideOutlineSize v => v
          | _ => outlineSize s
          end;
        bottomMargin :=
          match c with
          | SubtitleSettingsPanel.SlideBottomMargin v => v
          | _ => bottomMargin s
          end;
        enableFade :=
          match c with
          | SubtitleSettingsPanel.SwitchEnableFade v => v
          | _ => enableFade s
          end |}.
Proof. cbv zeta. destruct c; repeat split. Qed.

Ltac find_in_list := vm_compute; repeat (first [left; reflexivity | right]).

Lemma defaults_in_domain : in_domain (settings initialState).
Proof. unfold in_domain. repeat split; find_in_list. Qed.

Lemma change_keeps_domain (s : SubtitleSettings)
    (c : SubtitleSettingsPanel.Change) :
  in_domain s -> change_in_domain c ->
  in_domain (spread_settings s (SubtitleSettingsPanel.patch_of c)).
Proof.
  unfold in_domain. intros (H1 & H2 & H3 & H4 & H5) Hc.
  destruct c; simpl in *; repeat split; assumption.
Qed.

Lemma changes_keep_domain (changes : list SubtitleSettingsPanel.Change) :
  forall state,
    in_domain (settings state) ->
    Forall change_in_domain changes ->
    in_domain (settings (after_changes state changes)).
Proof.
  induction changes as [|c changes IH]; intros state Hs Hall; [exact Hs|].
  inversion Hall as [|? ? Hc Hrest]; subst.
  apply (IH (run_handler state (SubtitleSettingsPanel.handle updateSettings c)));
    [|exact Hrest].
  now apply change_keeps_domain.
Qed.

Lemma fontSize_numeral (k : nat) :
  In k (seq 0 57) ->
  Number_toString (16 + Number_of_N (N.of_nat k) * 1)%float =
  digits (Z.of_nat (16 + k)).
Proof. intros H. by_cases H. Qed.

Lemma outlineSize_numeral (k : nat) :
  In k (seq 0 17) ->
  Number_toString (0 + Number_of_N (N.of_nat k) * 0.25)%float =
  decimal_of_quarters (Z.of_nat k).
Proof. intros H. by_cases H. Qed.

Lemma bottomMargin_numeral (k : nat) :
  In k (seq 0 31) ->
  Number_toString (0 + Number_of_N (N.of_nat k) * 5)%float =
  digits (Z.of_nat (5 * k)).
Proof. intros H. by_cases H. Qed.

(** X14. The default settings lie within what the panel offers (the
    two font lists, the tracks of the three sliders), and changes whose
    values come from the option lists and the slider tracks keep them
    there.  For such settings the numeric parts of the request are
    plain decimal numerals: [font_size] an integer from 16 to 72,
    [outline_size] a number of quarters from 0 to 4, [bottom_margin] a
    multiple of 5 from 0 to 150. *)
Theorem panel_keeps_domain (state : VideoGeneratorState)
    (changes : list SubtitleSettingsPanel.Change) :
  in_domain (settings initialState)
  /\ (in_domain (settings state) ->
      Forall change_in_domain changes ->
      in_domain (settings (after_changes state changes)))
  /\ (in_domain (settings state) ->
      exists n k j : nat,
        n <= 56 /\ k <= 16 /\ j <= 30 /\
        FormData_get (build_formData state) "font_size" =
          Some (FormString (digits (Z.of_nat (16 + n)))) /\
        FormData_get (build_formData state) "outline_size" =
          Some (FormString (decimal_of_quarters (Z.of_nat k))) /\
        FormData_get (build_formData state) "bottom_margin" =
          Some (FormString (digits (Z.of_nat (5 * j))))).
Proof.
  split; [exact defaults_in_domain|].
  split; [apply changes_keep_domain|].
  intros (_ & _ & Hf & Ho & Hb).
  apply in_map_iff in Hf as (n & Hn & Hin).
  apply in_map_iff in Ho as (k & Hk & Hik).
  apply in_map_iff in Hb as (j & Hj & Hij).
  exists n, k, j.
  pose proof (proj1 (in_seq _ _ _) Hin).
  pose proof (proj1 (in_seq _ _ _) Hik).
  pose proof (proj1 (in_seq _ _ _) Hij).
  repeat split; try lia.
  - cbn. rewrite <- Hn. f_equal. f_equal. now apply fontSize_numeral.
  - cbn. rewrite <- Hk. f_equal. f_equal. now apply outlineSize_numeral.
  - cbn. rewrite <- Hj. f_equal. f_equal. now apply bottomMargin_numeral.
Qed.

Lemma panel_keeps_domain_witness :
  in_domain
    (settings
       (after_changes initialState
          [SubtitleSettingsPanel.SlideFontSize 48%float;
           SubtitleSettingsPanel.SelectFontFamilyEn "Arial";
           SubtitleSettingsPanel.SlideOutlineSize 1.25%float])).
Proof.
  apply (proj1 (proj2 (panel_keeps_domain initialState
           [SubtitleSettingsPanel.SlideFontSize 48%float;
            SubtitleSettingsPanel.SelectFontFamilyEn "Arial";
            SubtitleSettingsPanel.SlideOutlineSize 1.25%float]))).
  - exact (proj1 (panel_keeps_domain initialState [])).
  - constructor; [find_in_list|].
    constructor; [find_in_list|].
    constructor; [find_in_list|].
    constructor.
Defined.

(* ================================================================== *)
(** * Invariants of the preview *)
(* ================================================================== *)

Lemma same_object_refl (o : option File) : same_object o o = true.
Proof. destruct o; simpl; [apply Nat.eqb_refl | reflexivity]. Qed.

Lemma in_revoke (u src : ObjectURL) (urls : list ObjectURL) :
  In u (revoke src urls) -> In u urls /\ u <> src.
Proof.
  unfold revoke. intros H. apply filter_In in H as [Hin Hne].
  split; [exact Hin|]. intros ->. now rewrite Nat.eqb_refl in Hne.
Qed.

Lemma pending_forget (src : ObjectURL) (l : list (ObjectURL * File)) :
  map fst (forget_image src l) =
  filter (fun u => negb (Nat.eqb u src)) (map fst l).
Proof.
  induction l as [|[u f] l IH]; [reflexivity|].
  unfold forget_image in *. simpl.
  destruct (Nat.eqb u src); simpl; now rewrite IH.
Qed.

Lemma well_formed_mount (backgroundImage : option File) :
  well_formed (mount backgroundImage).
Proof.
  destruct backgroundImage as [file|]; unfold well_formed, pending_srcs; simpl.
  - repeat split; try discriminate.
    + intros u [H|[]]. now subst.
    + intros u H. injection H as H. lia.
    + intros u [H|[]]. lia.
    + repeat constructor. intros [].
  - repeat split; try discriminate; try (intros u []); try constructor.
Qed.

Lemma well_formed_cleanup (st : State) :
  well_formed st ->
  object_urls (run_cleanup st) = [] /\
  images (run_cleanup st) = images st /\
  next_url (run_cleanup st) = next_url st.
Proof.
  intros (Hlive & _). unfold run_cleanup.
  destruct (cleanup st) as [url|] eqn:Hc; simpl; repeat split.
  - destruct (revoke url (object_urls st)) as [|u l] eqn:E; [reflexivity|].
    assert (Hin : In u (revoke url (object_urls st))) by (rewrite E; now left).
    apply in_revoke in Hin as [Hin Hne].
    apply Hlive in Hin. congruence.
  - destruct (object_urls st) as [|u l]; [reflexivity|].
    specialize (Hlive u (or_introl eq_refl)). congruence.
Qed.

Lemma well_formed_step (st : State) (ev : Event) :
  well_formed st -> well_formed (step st ev).
Proof.
  intros Hwf. destruct ev as [bg|src]; simpl.
  - destruct (same_object (props_backgroundImage st) bg); [exact Hwf|].
    destruct (well_formed_cleanup st Hwf) as (Hu & Hi & Hn).
    destruct Hwf as (_ & _ & Hlt & Hnd & _).
    destruct bg as [file|]; unfold well_formed, pending_srcs, effect; simpl;
      rewrite ?Hu, ?Hi, ?Hn.
    + repeat split; try discriminate.
      * intros u [H|[]]. now subst.
      * intros u H. injection H as H. lia.
      * intros u H. rewrite map_app in H. apply in_app_iff in H as [H|[H|[]]].
        -- apply Hlt in H. lia.
        -- simpl in H. lia.
      * rewrite map_app. simpl.
        apply NoDup_app; [exact Hnd | repeat constructor; intros [] |].
        intros u H [H'|[]]. apply Hlt in H. lia.
    + split; [intros u []|]. split; [intros u H; discriminate H|].
      split; [exact Hlt|]. split; [exact Hnd|]. split; [reflexivity|].
      split; reflexivity.
  - destruct (image_of_src src (images st)) as [file|]; [|exact Hwf].
    destruct (file_image file) as [[width height]|]; [|exact Hwf].
    destruct Hwf as (Hlive & Hc & Hlt & Hnd & Hbg & Hnone).
    unfold well_formed, pending_srcs, onload; simpl.
    rewrite pending_forget.
    split; [intros u H; apply in_revoke in H as [H _]; now apply Hlive|].
    split; [exact Hc|].
    split; [intros u H; apply filter_In in H as [H _]; now apply Hlt|].
    split; [now apply NoDup_filter|].
    split; [exact Hbg | exact Hnone].
Qed.

Lemma well_formed_run (evs : list Event) :
  forall st, well_formed st -> well_formed (run st evs).
Proof.
  induction evs as [|ev evs IH]; intros st Hwf; [exact Hwf|].
  simpl. apply IH. now apply well_formed_step.
Qed.

Lemma live_urls_shape (evs : list Event) :
  forall st,
    (object_urls st = [] \/
     exists u, cleanup st = Some u /\ object_urls st = [u]) ->
    object_urls (run st evs) = [] \/
    exists u, cleanup (run st evs) = Some u /\ object_urls (run st evs) = [u].
Proof.
  induction evs as [|ev evs IH]; intros st H; [exact H|].
  simpl. apply IH. clear IH. destruct ev as [bg|src]; simpl.
  - destruct (same_object (props_backgroundImage st) bg); [exact H|].
    assert (Hu : object_urls (run_cleanup st) = []).
    { unfold run_cleanup.
      destruct H as [H | (u & Hc & H)]; [|rewrite Hc; simpl; rewrite H].
      - now destruct (cleanup st); simpl; rewrite H.
      - simpl. now rewrite Nat.eqb_refl. }
    destruct bg as [file|]; simpl; rewrite Hu; [right; eauto | now left].
  - destruct (image_of_src src (images st)) as [file|]; [|exact H].
    destruct (file_image file) as [[width height]|]; [|exact H].
    simpl. destruct H as [H | (u & Hc & H)]; rewrite H; simpl; [now left|].
    destruct (Nat.eqb u src); simpl; [now left | right; eauto].
Qed.

Lemma one_live_url_shape_of (backgroundImage : option File)
    (evs : list Event) :
  object_urls (run (mount backgroundImage) evs) = [] \/
  exists u, backgroundUrl (run (mount backgroundImage) evs) = Some u /\
            object_urls (run (mount backgroundImage) evs) = [u].
Proof.
  pose proof (well_formed_run evs _ (well_formed_mount backgroundImage)) as Hwf.
  assert (Hs : object_urls (mount backgroundImage) = [] \/
               exists u, cleanup (mount backgroundImage) = Some u /\
                         object_urls (mount backgroundImage) = [u]).
  { destruct backgroundImage; simpl; [right; eauto | now left]. }
  apply (live_urls_shape evs) in Hs.
  destruct Hs as [Hs | (u & Hc & Hs)]; [now left|].
  right. exists u. split; [|exact Hs].
  destruct Hwf as (_ & _ & _ & _ & Hbg & _). now rewrite Hbg.
Qed.

(** X15. At every moment of every run of the preview at most one object
    URL is live, and it is the one held in [backgroundUrl]; removing
    the component revokes it, so that no object URL created by the
    preview outlives it. *)
Theorem one_live_url (backgroundImage : option File) (evs : list Event) :
  let st := run (mount backgroundImage) evs in
  (object_urls st = [] \/
   exists u, backgroundUrl st = Some u /\ object_urls st = [u])
  /\ object_urls (unmount st) = [].
Proof.
  cbv zeta. split; [apply one_live_url_shape_of|].
  apply well_formed_cleanup, well_formed_run, well_formed_mount.
Qed.

Lemma image_of_src_found (l : list (ObjectURL * File)) (u : ObjectURL)
    (f : File) :
  NoDup (map fst l) -> In (u, f) l -> image_of_src u l = Some f.
Proof.
  induction l as [|[v g] l IH]; simpl; intros Hnd Hin; [destruct Hin|].
  inversion Hnd as [|? ? Hv Hl]; subst.
  destruct Hin as [H|H].
  - injection H as -> ->. now rewrite Nat.eqb_refl.
  - destruct (Nat.eqb_spec v u) as [->|Hne]; [|now apply IH].
    elim Hv. change u with (fst (u, f)). now apply in_map.
Qed.

(** X16. The decodes under way are told apart by their object URLs: at
    every moment of every run no two of them have the same URL, each
    URL was handed out before, and looking a decode up by its URL
    finds the file it was started from. *)
Theorem decodes_keyed_by_url (backgroundImage : option File)
    (evs : list Event) :
  let st := run (mount backgroundImage) evs in
  NoDup (pending_srcs st)
  /\ forall (u : ObjectURL) (file : File),
       In (u, file) (images st) ->
       image_of_src u (images st) = Some file /\ u < next_url st.
Proof.
  cbv zeta.
  pose proof (well_formed_run evs _ (well_formed_mount backgroundImage))
    as (_ & _ & Hlt & Hnd & _).
  split; [exact Hnd|]. intros u file Hin. split.
  - now apply image_of_src_found.
  - apply Hlt. unfold pending_srcs. change u with (fst (u, file)).
    now apply in_map.
Qed.

Lemma decodes_keyed_by_url_witness :
  image_of_src 0 (images (run (mount None) Sample.replaced_early)) =
  Some Sample.background.
Proof.
  apply (proj2 (decodes_keyed_by_url None Sample.replaced_early)
           0 Sample.background).
  left. reflexivity.
Defined.

(** X17. When the image shown as the background has been decoded, the
    load handler revokes the URL it was loaded from: [backgroundUrl]
    still holds that URL, and no object URL is live any more. *)
Theorem shown_url_revoked_after_load (backgroundImage : option File)
    (evs : list Event) (u : ObjectURL) (file : File) (width height : N) :
  let st := run (mount backgroundImage) evs in
  backgroundUrl st = Some u ->
  image_of_src u (images st) = Some file ->
  file_image file = Some (width, height) ->
  backgroundUrl (step st (ImageLoad u)) = Some u
  /\ object_urls (step st (ImageLoad u)) = [].
Proof.
  cbv zeta. intros Hbg Hi Hf.
  rewrite (step_load _ u file width height Hi Hf).
  split; [exact Hbg|]. simpl.
  destruct (one_live_url_shape_of backgroundImage evs) as [H | (v & Hv & H)].
  - now rewrite H.
  - rewrite H. simpl. rewrite Hbg in Hv. injection Hv as <-.
    now rewrite Nat.eqb_refl.
Qed.

Lemma shown_url_revoked_after_load_witness :
  backgroundUrl (step (run (mount None) [Rerender (Some Sample.wide)])
                      (ImageLoad 0)) = Some 0
  /\ object_urls (step (run (mount None) [Rerender (Some Sample.wide)])
                       (ImageLoad 0)) = [].
Proof.
  apply (shown_url_revoked_after_load None [Rerender (Some Sample.wide)]
           0 Sample.wide 1920%N 1080%N);
    reflexivity.
Defined.

(** X18. A change of the audio file, of the lyrics or of the settings
    re-renders the preview with the background image it already has,
    and the preview then keeps its state: the decode is not started
    again, no object URL is created or revoked, the aspect ratio
    stays.  The same holds when the background action puts the file
    object that is already there. *)
Theorem other_changes_keep_preview (st : State)
    (store : VideoGeneratorState) (a : ActionType) :
  props_backgroundImage st = backgroundImage store ->
  match a with
  | SET_BACKGROUND_IMAGE payload =>
      same_object (backgroundImage store) payload = true
  | _ => True
  end ->
  step st (Rerender (preview_backgroundImage (render (reducer store a)))) = st.
Proof.
  intros Hp Ha. simpl. rewrite Hp.
  destruct a; simpl; rewrite ?same_object_refl; try reflexivity.
  now rewrite Ha.
Qed.

Lemma other_changes_keep_preview_witness :
  step (mount (Some Sample.background))
       (Rerender
          (preview_backgroundImage
             (render (reducer Sample.job (SET_LYRICS "la la"))))) =
  mount (Some Sample.background).
Proof.
  apply (other_changes_keep_preview (mount (Some Sample.background))
           Sample.job (SET_LYRICS "la la") eq_refl I).
Defined.

Lemma image_of_src_fresh (l : list (ObjectURL * File)) (u : ObjectURL)
    (f : File) :
  ~ In u (map fst l) -> image_of_src u (l ++ [(u, f)]) = Some f.
Proof.
  induction l as [|[v g] l IH]; simpl; intros Hn.
  - now rewrite Nat.eqb_refl.
  - destruct (Nat.eqb_spec v u) as [->|Hne]; [elim Hn; now left|].
    apply IH. intros H. apply Hn. now right.
Qed.

(** X19. Putting another background image, at any moment of any run,
    does not by itself change the aspect ratio; it revokes the former
    object URL, makes a fresh one the only live URL and the value of
    [backgroundUrl], and starts a decode that is found under that URL
    with the new file.  If the load event of that decode comes next,
    the aspect ratio becomes the width of the new image divided by its
    height. *)
Theorem replacement_starts_decode (backgroundImage : option File)
    (evs : list Event) (file : File) :
  let st := run (mount backgroundImage) evs in
  let st' := step st (Rerender (Some file)) in
  same_object (props_backgroundImage st) (Some file) = false ->
  aspectRatio st' = aspectRatio st
  /\ props_backgroundImage st' = Some file
  /\ backgroundUrl st' = Some (next_url st)
  /\ object_urls st' = [next_url st]
  /\ image_of_src (next_url st) (images st') = Some file
  /\ (forall width height : N,
        file_image file = Some (width, height) ->
        aspectRatio (step st' (ImageLoad (next_url st))) =
        (Number_of_N width / Number_of_N height)%float).
Proof.
  cbv zeta. intros Hs.
  pose proof (well_formed_run evs _ (well_formed_mount backgroundImage)) as Hwf.
  destruct (well_formed_cleanup _ Hwf) as (Hu & Hi & Hn).
  assert (Hnew : image_of_src (next_url (run (mount backgroundImage) evs))
                   (images (step (run (mount backgroundImage) evs)
                                 (Rerender (Some file)))) = Some file).
  { simpl. rewrite Hs. unfold effect. simpl. rewrite Hi, Hn.
    apply image_of_src_fresh. intros H.
    destruct Hwf as (_ & _ & Hlt & _). apply Hlt in H. lia. }
  split; [|split; [|split; [|split; [|split]]]].
  - simpl. rewrite Hs. unfold effect. simpl.
    unfold run_cleanup. now destruct (cleanup _).
  - simpl. now rewrite Hs.
  - simpl. rewrite Hs. unfold effect. simpl. now rewrite Hn.
  - simpl. rewrite Hs. unfold effect. simpl. now rewrite Hu, Hn.
  - exact Hnew.
  - intros width height Hf.
    now rewrite (step_load _ _ file width height Hnew Hf).
Qed.

Lemma replacement_starts_decode_witness :
  image_of_src 1
    (images (step (run (mount None) [Rerender (Some Sample.wide)])
                  (Rerender (Some Sample.background)))) =
  Some Sample.background
  /\ aspectRatio
       (step (step (run (mount None) [Rerender (Some Sample.wide)])
                   (Rerender (Some Sample.background)))
             (ImageLoad 1)) = 2%float.
Proof.
  split.
  - apply (replacement_starts_decode None [Rerender (Some Sample.wide)]
             Sample.background eq_refl).
  - apply (proj2 (proj2 (proj2 (proj2 (proj2
             (replacement_starts_decode None [Rerender (Some Sample.wide)]
                Sample.background eq_refl)))))
             1000%N 500%N eq_refl).
Defined.
